(** * PumpControl: the write-verify-retry logic of the irrigation dashboard

    A shallow embedding of the asynchronous functions of the [PumpControl]
    component ([fetchChannelData], [updateThingSpeak], [handleModeChange],
    [handlePumpToggle]) and the properties of its synchronisation logic.

    - JavaScript objects are sequences of property definitions, numbers are
      IEEE 754 binary64 floats (the kernel's primitive floats).
    - The component's state cells, its two refs and the record of what it did
      on the network are one explicit state, threaded through a small
      state-and-exception monad.
    - The constants a render binds ([channelData], [activeTab], the two API
      keys) are a separate record: the functions created by a render read
      those, whatever the setters have been called with since.
    - Each asynchronous function runs to its end from the state it starts
      in: the development follows one call, not the interleaving of a call
      with the fetches of the 30 s timer. *)

From Stdlib Require Import ZArith List String Ascii Bool Lia Floats.
From Equations Require Import Equations.
Import ListNotations.

Local Open Scope string_scope.
Local Open Scope list_scope.
Local Open Scope Z_scope.

(** ** JavaScript values and objects *)

Module Js.

(** The values a [ChannelData] property can hold: a string, or
    [undefined] (also what reading a missing property gives). *)
Inductive value : Type :=
| undefined
| str (s : string).

(** [a === b] *)
Definition strict_eq (a b : value) : bool :=
  match a, b with
  | undefined, undefined => true
  | str s, str t => String.eqb s t
  | _, _ => false
  end.

(** An object is the sequence of its property definitions, in the order
    they were made: [{a: x, ...o, b: y}] is [[("a", x)] ++ o ++ [("b", y)]].
    A later definition of a key overrides the value of an earlier one and
    keeps the earlier one's place among the keys. *)
Definition object : Type := list (string * value).

Definition defines (k : string) (p : string * value) : bool :=
  String.eqb k (fst p).

(** [k in o] *)
Definition has (k : string) (o : object) : bool := existsb (defines k) o.

(** The value of [k] after the definitions [o], when it was [d] before. *)
Definition get_from (d : value) (k : string) (o : object) : value :=
  fold_left (fun acc p => if defines k p then snd p else acc) o d.

(** [o[k]] *)
Definition get (k : string) (o : object) : value := get_from undefined k o.

(** [{...o, [k]: v}] *)
Definition set (k : string) (v : value) (o : object) : object :=
  o ++ [(k, v)].

(** [{...o, ...src}] *)
Definition spread (o src : object) : object := o ++ src.

(** [Object.keys(o)]: the distinct keys, by first definition (no key of
    [ChannelData] is an array index, which JavaScript lists first). *)
Fixpoint keys_from (seen : list string) (o : object) : list string :=
  match o with
  | [] => []
  | (k, _) :: o' =>
      if existsb (String.eqb k) seen then keys_from seen o'
      else k :: keys_from (k :: seen) o'
  end.

Definition keys (o : object) : list string := keys_from [] o.

(** [l[0]] on an array of strings: [undefined] when the array is empty. *)
Definition first (l : list string) : value :=
  match l with
  | [] => undefined
  | k :: _ => str k
  end.

(** A value used as a property key: [o[undefined]] reads the property
    named "undefined". *)
Definition ToPropertyKey (v : value) : string :=
  match v with
  | undefined => "undefined"
  | str s => s
  end.

(** [o[v]] *)
Definition index (o : object) (v : value) : value := get (ToPropertyKey v) o.

(** [String(v)] *)
Definition ToString (v : value) : string :=
  match v with
  | undefined => "undefined"
  | str s => s
  end.

(** [new URLSearchParams(o)]: one pair per key of [o], in the order of
    [Object.keys(o)], with the value as a string. *)
Definition URLSearchParams (o : object) : list (string * string) :=
  map (fun k => (k, ToString (get k o))) (keys o).

(** [params.get(k)]: the first value of [k], [None] for JavaScript's
    [null]. *)
Fixpoint param (k : string) (q : list (string * string)) : option string :=
  match q with
  | [] => None
  | (k', v) :: q' => if String.eqb k k' then Some v else param k q'
  end.

End Js.

Import Js.

(** ** The outside world *)

(** What a [GET feeds/last.json] comes back with: [fetch] or
    [response.json()] rejects, the status is not a success
    ([!response.ok]), or the body is the channel's last entry, an object
    whose properties are strings as [ChannelData] declares. *)
Inductive GetReply : Type :=
| GetRejects
| GetStatus (status : Z)
| GetJson (data : object).

(** What a [POST update] comes back with: [fetch] or [response.text()]
    rejects, the status is not a success, or the body is a text. *)
Inductive PostReply : Type :=
| PostRejects
| PostStatus (status : Z)
| PostText (result : string).

(** The replies of the channel to the successive requests and the readings
    of the clock, as one run of the program meets them. *)
Record World : Type := {
  get_reply : nat -> GetReply;       (* to the n-th GET, from 0 *)
  post_reply : nat -> PostReply;     (* to the n-th POST, from 0 *)
  toISOString : nat -> string        (* new Date().toISOString() after n events *)
}.

(** What the component did on the network, and its pauses. *)
Inductive Event : Type :=
| Get (reply : GetReply)
| Post (params : list (string * string)) (reply : PostReply)
| Sleep (ms : Z).

Definition is_Get (e : Event) : bool :=
  match e with Get _ => true | _ => false end.
Definition is_Post (e : Event) : bool :=
  match e with Post _ _ => true | _ => false end.
Definition is_Sleep (e : Event) : bool :=
  match e with Sleep _ => true | _ => false end.
Definition is_snapshot (e : Event) : bool :=
  match e with Get (GetJson _) => true | _ => false end.

Definition count (p : Event -> bool) (t : list Event) : nat :=
  List.length (filter p t).

(** ** The component *)

(** The constants of one render of [PumpControl]; the functions the render
    creates close over them. *)
Record Render : Type := {
  readApiKey : string;
  writeApiKey : string;
  channelData : object;
  activeTab : string
}.

(** What outlives a render: the state cells (the value each setter was last
    called with), the two refs, the live interval timers, the console, the
    toasts shown and the network record. *)
Record Component : Type := {
  cell_channelData : object;
  cell_loading : bool;
  cell_updating : bool;
  cell_error : option string;
  cell_activeTab : string;
  modeChangeInProgress : bool;       (* modeChangeInProgress.current *)
  checkInterval : option nat;        (* checkInterval.current *)
  intervals : list nat;
  console : list string;
  toasts : list (string * string);
  trace : list Event
}.

(** The render that follows a state: its constants are the cells. *)
Definition render (readKey writeKey : string) (c : Component) : Render :=
  {| readApiKey := readKey; writeApiKey := writeKey;
     channelData := cell_channelData c; activeTab := cell_activeTab c |}.

(** [useState<ChannelData>({})], [useState(true)], [useState(false)],
    [useState(null)], [useState(channelData.field7 === "1" ? "manual" : "auto")],
    [useRef(false)], [useRef(null)]. *)
Definition mount : Component :=
  {| cell_channelData := []; cell_loading := true; cell_updating := false;
     cell_error := None;
     cell_activeTab :=
       if strict_eq (get "field7" []) (str "1") then "manual" else "auto";
     modeChangeInProgress := false; checkInterval := None;
     intervals := []; console := []; toasts := []; trace := [] |}.

(** An exception: a rejected network promise, or one of the [Error]s the
    code throws. *)
Inductive Exn : Type :=
| NetworkError
| ErreurHTTP (status : Z)            (* new Error(`Erreur HTTP: ${status}`) *)
| Error (message : string).          (* new Error(message) *)

Inductive Outcome (A : Type) : Type :=
| Return (a : A)
| Throw (e : Exn).
Arguments Return {A} a.
Arguments Throw {A} e.

(** An asynchronous computation over the component: it ends by returning or
    by throwing (a fulfilled or a rejected promise). *)
Definition Async (A : Type) : Type := Component -> Outcome A * Component.

Definition ret {A} (a : A) : Async A := fun c => (Return a, c).

Definition throw {A} (e : Exn) : Async A := fun c => (Throw e, c).

Definition bind {A B} (m : Async A) (k : A -> Async B) : Async B :=
  fun c =>
    match m c with
    | (Return a, c') => k a c'
    | (Throw e, c') => (Throw e, c')
    end.

Declare Scope async_scope.
Delimit Scope async_scope with async.
Notation "x <- m ;; k" := (bind m (fun x => k))
  (at level 61, m at next level, right associativity) : async_scope.
Notation "m ;; k" := (bind m (fun _ => k))
  (at level 61, right associativity) : async_scope.
Local Open Scope async_scope.

(** [try { body } catch (e) { handler } finally { cleanup }] *)
Definition try_catch_finally {A} (body : Async A) (handler : Exn -> Async A)
    (cleanup : Async unit) : Async A :=
  fun c =>
    let (r, c1) := match body c with
                   | (Return a, c') => (Return a, c')
                   | (Throw e, c') => handler e c'
                   end in
    match cleanup c1 with
    | (Return _, c2) => (r, c2)
    | (Throw e, c2) => (Throw e, c2)
    end.

Definition when (b : bool) (m : Async unit) : Async unit :=
  if b then m else ret tt.

(** Reading the state. *)
Definition read {A} (f : Component -> A) : Async A := fun c => (Return (f c), c).

(** *** Setters and refs *)

Definition update (f : Component -> Component) : Async unit :=
  fun c => (Return tt, f c).

Definition setChannelData (f : object -> object) : Async unit :=
  update (fun c =>
    {| cell_channelData := f (cell_channelData c); cell_loading := cell_loading c;
       cell_updating := cell_updating c; cell_error := cell_error c;
       cell_activeTab := cell_activeTab c;
       modeChangeInProgress := modeChangeInProgress c;
       checkInterval := checkInterval c; intervals := intervals c;
       console := console c; toasts := toasts c; trace := trace c |}).

Definition setLoading (b : bool) : Async unit :=
  update (fun c =>
    {| cell_channelData := cell_channelData c; cell_loading := b;
       cell_updating := cell_updating c; cell_error := cell_error c;
       cell_activeTab := cell_activeTab c;
       modeChangeInProgress := modeChangeInProgress c;
       checkInterval := checkInterval c; intervals := intervals c;
       console := console c; toasts := toasts c; trace := trace c |}).

Definition setUpdating (b : bool) : Async unit :=
  update (fun c =>
    {| cell_channelData := cell_channelData c; cell_loading := cell_loading c;
       cell_updating := b; cell_error := cell_error c;
       cell_activeTab := cell_activeTab c;
       modeChangeInProgress := modeChangeInProgress c;
       checkInterval := checkInterval c; intervals := intervals c;
       console := console c; toasts := toasts c; trace := trace c |}).

Definition setError (e : option string) : Async unit :=
  update (fun c =>
    {| cell_channelData := cell_channelData c; cell_loading := cell_loading c;
       cell_updating := cell_updating c; cell_error := e;
       cell_activeTab := cell_activeTab c;
       modeChangeInProgress := modeChangeInProgress c;
       checkInterval := checkInterval c; intervals := intervals c;
       console := console c; toasts := toasts c; trace := trace c |}).

Definition setActiveTab (tab : string) : Async unit :=
  update (fun c =>
    {| cell_channelData := cell_channelData c; cell_loading := cell_loading c;
       cell_updating := cell_updating c; cell_error := cell_error c;
       cell_activeTab := tab;
       modeChangeInProgress := modeChangeInProgress c;
       checkInterval := checkInterval c; intervals := intervals c;
       console := console c; toasts := toasts c; trace := trace c |}).

(** [modeChangeInProgress.current = b] *)
Definition set_modeChangeInProgress (b : bool) : Async unit :=
  update (fun c =>
    {| cell_channelData := cell_channelData c; cell_loading := cell_loading c;
       cell_updating := cell_updating c; cell_error := cell_error c;
       cell_activeTab := cell_activeTab c;
       modeChangeInProgress := b;
       checkInterval := checkInterval c; intervals := intervals c;
       console := console c; toasts := toasts c; trace := trace c |}).

(** [clearInterval(id); checkInterval.current = null] *)
Definition clear_checkInterval (id : nat) : Async unit :=
  update (fun c =>
    {| cell_channelData := cell_channelData c; cell_loading := cell_loading c;
       cell_updating := cell_updating c; cell_error := cell_error c;
       cell_activeTab := cell_activeTab c;
       modeChangeInProgress := modeChangeInProgress c;
       checkInterval := None;
       intervals := filter (fun i => negb (Nat.eqb i id)) (intervals c);
       console := console c; toasts := toasts c; trace := trace c |}).

(** [console.error(label, error)] *)
Definition console_error (label : string) : Async unit :=
  update (fun c =>
    {| cell_channelData := cell_channelData c; cell_loading := cell_loading c;
       cell_updating := cell_updating c; cell_error := cell_error c;
       cell_activeTab := cell_activeTab c;
       modeChangeInProgress := modeChangeInProgress c;
       checkInterval := checkInterval c; intervals := intervals c;
       console := console c ++ [label]; toasts := toasts c; trace := trace c |}).

(** [toast({title, description})] *)
Definition toast (title description : string) : Async unit :=
  update (fun c =>
    {| cell_channelData := cell_channelData c; cell_loading := cell_loading c;
       cell_updating := cell_updating c; cell_error := cell_error c;
       cell_activeTab := cell_activeTab c;
       modeChangeInProgress := modeChangeInProgress c;
       checkInterval := checkInterval c; intervals := intervals c;
       console := console c; toasts := toasts c ++ [(title, description)];
       trace := trace c |}).

Definition record (e : Event) : Async unit :=
  update (fun c =>
    {| cell_channelData := cell_channelData c; cell_loading := cell_loading c;
       cell_updating := cell_updating c; cell_error := cell_error c;
       cell_activeTab := cell_activeTab c;
       modeChangeInProgress := modeChangeInProgress c;
       checkInterval := checkInterval c; intervals := intervals c;
       console := console c; toasts := toasts c; trace := trace c ++ [e] |}).

(** [await new Promise((resolve) => setTimeout(resolve, ms))] *)
Definition sleep (ms : Z) : Async unit := record (Sleep ms).

(** ** The functions of [PumpControl] *)

(** The options of the executor; the counts are integers. *)
Record RetryOptions : Type := {
  retries : option Z;
  delay : option Z
}.

(** [const { x = d } = ...] *)
Definition default {A} (d : A) (x : option A) : A :=
  match x with
  | Some a => a
  | None => d
  end.

(** [{api_key: writeApiKey, ...currentData, ...updates, created_at: now}] *)
Definition write_params (writeKey : string) (currentData updates : object)
    (now : string) : object :=
  set "created_at" (str now)
    (spread (spread [("api_key", str writeKey)] currentData) updates).

(** [value === "auto" ? 0 : 1] *)
Definition mode_of_tab (tab : string) : float :=
  if String.eqb tab "auto" then 0%float else 1%float.

(** [newMode.toString()], for the two values [newMode] takes. *)
Definition mode_toString (newMode : float) : string :=
  if (newMode =? 0)%float then "0" else "1".

(** The message of the executor when its attempts are spent. *)
Definition terminal_message : string :=
  "Échec de la mise à jour après plusieurs tentatives. Veuillez réessayer plus tard.".

(** The messages of the two [Error]s of an attempt. *)
Definition write_failed : string := "Échec de la mise à jour".
Definition sync_failed : string := "La synchronisation a échoué".

(** What the component runs in: the language's conversion of a string to a
    number (the [StringToNumber] of [Number(...)]), which is not the
    component's, and the world. The development holds in any. *)
Class Environment : Type := {
  StringToNumber : string -> float;
  world : World
}.

Section PumpControl.

Context {E : Environment}.

(** [Number(v)] *)
Definition Number (v : value) : float :=
  match v with
  | undefined => nan
  | str s => StringToNumber s
  end.

(** The reply that the next read will get. *)
Definition next_get (c : Component) : GetReply :=
  get_reply world (count is_Get (trace c)).

(** The reply that the next write will get. *)
Definition next_post (c : Component) : PostReply :=
  post_reply world (count is_Post (trace c)).

(** [await fetch(url)] on the read endpoint, down to the parsed body. The
    [t] parameter of the URL, the time in milliseconds, only defeats caches
    and is left out. *)
Definition http_get : Async GetReply :=
  reply <- read next_get ;;
  record (Get reply) ;;
  ret reply.

(** [await fetch(url, {method: "POST"})] on the write endpoint, down to
    the text of the body. *)
Definition http_post (params : list (string * string)) : Async PostReply :=
  reply <- read next_post ;;
  record (Post params reply) ;;
  ret reply.

(** [new Date().toISOString()] *)
Definition now : Async string :=
  read (fun c => toISOString world (List.length (trace c))).

(** [data.field7 !== undefined ? Number(data.field7) : 0] *)
Definition currentMode (data : object) : float :=
  if negb (strict_eq (get "field7" data) undefined)
  then Number (get "field7" data) else 0%float.

(** [activeTab === "auto" ? 0 : 1] *)
Definition expectedMode (r : Render) : float := mode_of_tab (activeTab r).

Definition fetchChannelData (r : Render) : Async object :=
  try_catch_finally
    (setLoading true ;;
     setError None ;;
     reply <- http_get ;;
     match reply with
     | GetRejects => throw NetworkError
     | GetStatus status => throw (ErreurHTTP status)
     | GetJson data =>
         setChannelData (fun _ => data) ;;
         pending <- read modeChangeInProgress ;;
         when pending
           (when (currentMode data =? expectedMode r)%float
              (set_modeChangeInProgress false ;;
               timer <- read checkInterval ;;
               match timer with
               | Some id => clear_checkInterval id
               | None => ret tt
               end)) ;;
         ret data
     end)
    (fun e =>
       console_error "Erreur lors de la récupération des données:" ;;
       setError (Some "Impossible de récupérer les données. Veuillez réessayer.") ;;
       throw e)
    (setLoading false).

Section updateThingSpeak.

Variable r : Render.
Variable updates : object.
Variable retries_ : Z.
Variable delay_ : Z.

Definition verifyUpdate : Async bool :=
  newData <- fetchChannelData r ;;
  let field := first (keys updates) in
  ret (strict_eq (index newData field) (index updates field)).

(** [for (let i = 0; i < 3; i++) { if (await verifyUpdate()) { verified =
    true; break; } await sleep(2000); }], with [n] rounds left; the result
    is [verified]. *)
Fixpoint verify_loop (n : nat) : Async bool :=
  match n with
  | O => ret false
  | S n' =>
      ok <- verifyUpdate ;;
      if ok then ret true
      else (sleep 2000 ;; verify_loop n')
  end.

(** The [try] block of [attemptUpdate]. *)
Definition attempt : Async bool :=
  setUpdating true ;;
  setError None ;;
  currentData <- fetchChannelData r ;;
  created_at <- now ;;
  reply <- http_post (URLSearchParams
             (write_params (writeApiKey r) currentData updates created_at)) ;;
  match reply with
  | PostRejects => throw NetworkError
  | PostStatus status => throw (ErreurHTTP status)
  | PostText result =>
      if (Number (str result) <=? 0)%float
      then throw (Error write_failed)
      else
        verified <- verify_loop 3 ;;
        if negb verified then throw (Error sync_failed)
        else ret true
  end.

(** [attemptUpdate], with the value of the counter [attempts] when it is
    entered. It ends: the counter grows towards [retries]. *)
Equations? attemptUpdate (attempts : Z) : Async bool
  by wf (Z.to_nat (retries_ - attempts)) lt :=
  attemptUpdate attempts :=
    try_catch_finally
      attempt
      (fun error =>
         let attempts := attempts + 1 in
         match Z_lt_dec attempts retries_ with
         | left _ =>
             sleep delay_ ;;
             attemptUpdate attempts
         | right _ =>
             console_error "Échec final après réessais:" ;;
             setError (Some terminal_message) ;;
             ret false
         end)
      (setUpdating false).
Proof. lia. Qed.

End updateThingSpeak.

Definition updateThingSpeak (r : Render) (updates : object)
    (options : RetryOptions) : Async bool :=
  attemptUpdate r updates (default 5 (retries options))
    (default 2000 (delay options)) 0.

Definition handleModeChange (r : Render) (value : string) : Async unit :=
  let newMode := mode_of_tab value in
  setActiveTab value ;;
  when (negb (Number (get "field7" (channelData r)) =? newMode)%float)
    (set_modeChangeInProgress true ;;
     setUpdating true ;;
     success <- updateThingSpeak r [("field7", str (mode_toString newMode))]
                  {| retries := Some 20; delay := Some 2000 |} ;;
     (if success
      then toast "Succès"
             ("Mode " ++ (if String.eqb value "auto" then "automatique" else "manuel")
              ++ " adopté")
      else setActiveTab (if (newMode =? 0)%float then "manual" else "auto")) ;;
     set_modeChangeInProgress false ;;
     setUpdating false).

Definition handlePumpToggle (r : Render) : Async unit :=
  let newState :=
    if strict_eq (get "field5" (channelData r)) (str "1") then "0" else "1" in
  setUpdating true ;;
  success <- updateThingSpeak r [("field5", str newState)]
               {| retries := Some 20; delay := Some 2000 |} ;;
  (if success
   then toast "Succès"
          ("La pompe a été " ++ (if String.eqb newState "1" then "activée" else "désactivée")
           ++ " manuellement")
   else setChannelData (fun prev => set "field5" (get "field5" prev) prev)) ;;
  setUpdating false.

End PumpControl.

(** ** Worlds and conversions for the examples *)

Definition digit (a : ascii) : option Z :=
  let n := Z.of_nat (nat_of_ascii a) in
  if (48 <=? n) && (n <=? 57) then Some (n - 48) else None.

Fixpoint digits (acc : Z) (s : string) : option Z :=
  match s with
  | EmptyString => Some acc
  | String a s' =>
      match digit a with
      | Some d => digits (10 * acc + d) s'
      | None => None
      end
  end.

Definition float_of_Z (n : Z) : float := PrimFloat.of_uint63 (Uint63.of_Z n).

(** A conversion for the examples: it is [StringToNumber] on the empty
    string and on the decimal integer literals of at most fifteen digits,
    with or without a minus sign, and gives [NaN] on "error". *)
Definition decimal (s : string) : float :=
  match s with
  | EmptyString => 0%float
  | String "-" (String a s') =>
      match digits 0 (String a s') with
      | Some n => (- float_of_Z n)%float
      | None => nan
      end
  | _ =>
      match digits 0 s with
      | Some n => float_of_Z n
      | None => nan
      end
  end.

(** ** Vocabulary of the properties *)

(** The keys of the [ChannelData] interface. *)
Definition ChannelData_keys : list string :=
  ["field1"; "field2"; "field3"; "field4"; "field5"; "field6"; "field7";
   "created_at"].

(** [o] has the keys of [ChannelData] only. *)
Definition is_ChannelData (o : object) : bool :=
  forallb (fun p => existsb (String.eqb (fst p)) ChannelData_keys) o.

Section Vocabulary.

Context {E : Environment}.

(** The write endpoint rejects: the body of its reply converts to a
    number that is at most 0. *)
Definition rejects (reply : PostReply) : bool :=
  match reply with
  | PostText result => (Number (str result) <=? 0)%float
  | _ => false
  end.

(** A read that brought a snapshot whose mode is the one the render [r]
    expects. *)
Definition confirms (r : Render) (e : Event) : bool :=
  match e with
  | Get (GetJson data) =>
      (currentMode data =? expectedMode r)%float
  | _ => false
  end.

(** From [c] to [c'] the component did [t] on the network, showed no
    toast, left the tab cell alone, and cleared the pending flag if and
    only if a read of [t] confirmed the mode that [r] expects. *)
Definition steps (r : Render) (c c' : Component) (t : list Event) : Prop :=
  trace c' = trace c ++ t /\
  cell_activeTab c' = cell_activeTab c /\
  toasts c' = toasts c /\
  modeChangeInProgress c'
  = modeChangeInProgress c && negb (existsb (confirms r) t).

(** [t] has reads and pauses only. *)
Definition reads_only (t : list Event) : Prop :=
  Forall (fun e => is_Get e = true \/ exists ms, e = Sleep ms) t.

(** Every write of [t] comes right after a read that brought a snapshot,
    and carries that snapshot merged with [updates] and the time of the
    clock; [n] events came before [t], and [last] is the snapshot of the
    event before [t] when that was such a read. *)
Fixpoint writes_merge (r : Render) (updates : object) (n : nat)
    (last : option object) (t : list Event) : Prop :=
  match t with
  | [] => True
  | Get (GetJson data) :: t' => writes_merge r updates (S n) (Some data) t'
  | Post q _ :: t' =>
      match last with
      | Some currentData =>
          q = URLSearchParams
                (write_params (writeApiKey r) currentData updates (toISOString world n))
      | None => False
      end /\ writes_merge r updates (S n) None t'
  | _ :: t' => writes_merge r updates (S n) None t'
  end.

(** The events of one attempt that the channel refuses: a read that
    fails, or a read and the write that is rejected. *)
Definition refused_attempt (b : list Event) : Prop :=
  (exists k, b = [Get (get_reply world k)] /\
             forall data, get_reply world k <> GetJson data) \/
  (exists data q reply,
      b = [Get (GetJson data); Post q reply] /\ rejects reply = true).

(** [n] refused attempts, with a pause of [ms] between one and the next. *)
Inductive refused_attempts (ms : Z) : nat -> list Event -> Prop :=
| refused_last b :
    refused_attempt b -> refused_attempts ms 1 b
| refused_more b n t :
    refused_attempt b -> refused_attempts ms n t ->
    refused_attempts ms (S n) (b ++ Sleep ms :: t).

(** The end of an attempt whose write was accepted, from the outcome of
    the verification loop. *)
Definition after_verification (v : Outcome bool * Component)
    : Outcome bool * Component :=
  match v with
  | (Return true, c) => (Return true, c)
  | (Return false, c) => (Throw (Error sync_failed), c)
  | (Throw e, c) => (Throw e, c)
  end.

(** The state of an attempt when it reads the channel. *)
Definition at_read (c : Component) : Component :=
  snd ((setUpdating true ;; setError None) c).

(** The request of an attempt that read [currentData] in the state [c]. *)
Definition request (r : Render) (updates currentData : object)
    (c : Component) : list (string * string) :=
  URLSearchParams
    (write_params (writeApiKey r) currentData updates
       (toISOString world (List.length (trace c)))).

(** The state of an attempt once it has sent [q] from the state [c]. *)
Definition at_reply (q : list (string * string)) (c : Component) : Component :=
  snd (record (Post q (next_post c)) c).

(** The state the [finally] block of [attemptUpdate] leaves. *)
Definition finished (c : Component) : Component :=
  snd (setUpdating false c).

(** The state after the pause before the next attempt. *)
Definition paused (ms : Z) (c : Component) : Component :=
  snd (sleep ms c).

(** The state after the last failed attempt. *)
Definition given_up (c : Component) : Component :=
  snd ((console_error "Échec final après réessais:" ;;
        setError (Some terminal_message) ;;
        setUpdating false) c).

(** The state in which [handleModeChange] calls the executor. *)
Definition requested (value : string) (c : Component) : Component :=
  snd ((setActiveTab value ;; set_modeChangeInProgress true ;; setUpdating true) c).

(** The update and the options of [handleModeChange] and of
    [handlePumpToggle]. *)
Definition mode_update (value : string) : object :=
  [("field7", str (mode_toString (mode_of_tab value)))].

Definition pump_update (r : Render) : object :=
  [("field5",
    str (if strict_eq (get "field5" (channelData r)) (str "1") then "0" else "1"))].

Definition elevated : RetryOptions := {| retries := Some 20; delay := Some 2000 |}.

End Vocabulary.

(** ** Environments of the examples *)

Definition with_world (w : World) : Environment :=
  {| StringToNumber := decimal; world := w |}.

Definition snapshot_auto : object :=
  [("created_at", str "2025-05-01T10:00:00Z"); ("field3", str "41");
   ("field5", str "0"); ("field7", str "0")].

Definition snapshot_manual : object :=
  [("created_at", str "2025-05-01T10:00:15Z"); ("field3", str "41");
   ("field5", str "0"); ("field7", str "1")].

(** A snapshot without the mode field. *)
Definition snapshot_bare : object :=
  [("created_at", str "2025-05-01T10:00:00Z"); ("field5", str "1")].

(** The channel cannot be reached. *)
Definition unreachable : World :=
  {| get_reply := fun _ => GetRejects;
     post_reply := fun _ => PostRejects;
     toISOString := fun _ => "2025-05-01T10:00:01Z" |}.

(** The channel is read, and rejects every write with the entry id 0. *)
Definition refusing : World :=
  {| get_reply := fun _ => GetJson snapshot_auto;
     post_reply := fun _ => PostText "0";
     toISOString := fun _ => "2025-05-01T10:00:01Z" |}.

(** The channel takes the write of the manual mode and shows it from the
    third read on. *)
Definition settling : World :=
  {| get_reply := fun n => if (n <=? 1)%nat then GetJson snapshot_auto
                           else GetJson snapshot_manual;
     post_reply := fun _ => PostText "13";
     toISOString := fun _ => "2025-05-01T10:00:01Z" |}.

(** The write endpoint answers with a text that is no number. *)
Definition garbled : World :=
  {| get_reply := fun _ => GetJson snapshot_auto;
     post_reply := fun _ => PostText "error";
     toISOString := fun _ => "2025-05-01T10:00:01Z" |}.

(** The channel's last entry has no mode field. *)
Definition modeless : World :=
  {| get_reply := fun _ => GetJson snapshot_bare;
     post_reply := fun _ => PostText "0";
     toISOString := fun _ => "2025-05-01T10:00:01Z" |}.

(** A render that shows the automatic mode, after [snapshot_auto]. *)
Definition showing_auto : Render :=
  {| readApiKey := "READ"; writeApiKey := "WRITE";
     channelData := snapshot_auto; activeTab := "auto" |}.

(** The component after its first fetch brought [snapshot_auto]. *)
Definition loaded : Component :=
  {| cell_channelData := snapshot_auto; cell_loading := false;
     cell_updating := false; cell_error := None; cell_activeTab := "auto";
     modeChangeInProgress := false; checkInterval := None; intervals := [];
     console := []; toasts := []; trace := [] |}.

(** The same, while a mode change is pending and watched by the timer 7. *)
Definition pending : Component :=
  {| cell_channelData := snapshot_auto; cell_loading := false;
     cell_updating := false; cell_error := None; cell_activeTab := "auto";
     modeChangeInProgress := true; checkInterval := Some 7%nat;
     intervals := [3%nat; 7%nat];
     console := []; toasts := []; trace := [] |}.

(** ** The rest of the component: derived state, effects, timers *)

(** [channelData.field5 === "1"] *)
Definition pumpState (channelData : object) : bool :=
  strict_eq (get "field5" channelData) (str "1").

(** [channelData.field7 === "0"] *)
Definition isAutoMode (channelData : object) : bool :=
  strict_eq (get "field7" channelData) (str "0").

(** The [disabled] attribute of the two tab triggers, of the pump switch and
    of the refresh button in the render that follows the state [c]:
    [updating || modeChangeInProgress.current],
    [updating || isAutoMode || modeChangeInProgress.current] and
    [loading || updating]. *)
Definition tabs_disabled (c : Component) : bool :=
  cell_updating c || modeChangeInProgress c.

Definition switch_disabled (c : Component) : bool :=
  cell_updating c || isAutoMode (cell_channelData c) || modeChangeInProgress c.

Definition refresh_disabled (c : Component) : bool :=
  cell_loading c || cell_updating c.

(** The body of the effect on [channelData.field7]:
    [if (channelData.field7 !== undefined)
       setActiveTab(channelData.field7 === "1" ? "manual" : "auto")]. *)
Definition sync_tab (r : Render) : Async unit :=
  when (negb (strict_eq (get "field7" (channelData r)) undefined))
    (setActiveTab
       (if strict_eq (get "field7" (channelData r)) (str "1")
        then "manual" else "auto")).

(** The effect with its dependency [[channelData.field7]]: it runs after
    the first render, and after a render whose [field7] is not the one of
    the render before ([previous]). *)
Definition effect_tab (previous : option Render) (r : Render) : Async unit :=
  match previous with
  | None => sync_tab r
  | Some p =>
      if strict_eq (get "field7" (channelData p)) (get "field7" (channelData r))
      then ret tt
      else sync_tab r
  end.

(** [setInterval(callback, ms)], which returns [id]. *)
Definition setInterval (id : nat) : Async nat :=
  update (fun c =>
    {| cell_channelData := cell_channelData c; cell_loading := cell_loading c;
       cell_updating := cell_updating c; cell_error := cell_error c;
       cell_activeTab := cell_activeTab c;
       modeChangeInProgress := modeChangeInProgress c;
       checkInterval := checkInterval c; intervals := intervals c ++ [id];
       console := console c; toasts := toasts c; trace := trace c |}) ;;
  ret id.

(** [clearInterval(id)] *)
Definition clearInterval (id : nat) : Async unit :=
  update (fun c =>
    {| cell_channelData := cell_channelData c; cell_loading := cell_loading c;
       cell_updating := cell_updating c; cell_error := cell_error c;
       cell_activeTab := cell_activeTab c;
       modeChangeInProgress := modeChangeInProgress c;
       checkInterval := checkInterval c;
       intervals := filter (fun i => negb (Nat.eqb i id)) (intervals c);
       console := console c; toasts := toasts c; trace := trace c |}).

(** A call whose promise nobody awaits: its rejection is not handled. *)
Definition unawaited {A} (m : Async A) : Async unit :=
  fun c => (Return tt, snd (m c)).

(** The sum of the pauses of a record, in milliseconds. *)
Fixpoint pause_total (t : list Event) : Z :=
  match t with
  | [] => 0
  | Sleep ms :: t' => ms + pause_total t'
  | _ :: t' => pause_total t'
  end.

Section Effects.

Context {E : Environment}.

(** The effect on [readApiKey], in a render [r]:
    [fetchChannelData(); const interval = setInterval(fetchChannelData, 30000)];
    the result is [interval], the id that [setInterval] returns. *)
Definition mount_effect (r : Render) (id : nat) : Async nat :=
  unawaited (fetchChannelData r) ;;
  setInterval id.

(** Its cleanup:
    [clearInterval(interval);
     if (checkInterval.current) clearInterval(checkInterval.current)]. *)
Definition unmount_effect (interval : nat) : Async unit :=
  clearInterval interval ;;
  timer <- read checkInterval ;;
  match timer with
  | Some id => clearInterval id
  | None => ret tt
  end.

(** The callback of the 30 s timer of a render [r] (the refresh button,
    [onClick={() => fetchChannelData()}], does the same). *)
Definition tick (r : Render) : Async unit := unawaited (fetchChannelData r).

End Effects.

(** The message that a failed fetch shows. *)
Definition fetch_failed : string :=
  "Impossible de récupérer les données. Veuillez réessayer.".

(** The channel takes every write and never shows it. *)
Definition deaf : World :=
  {| get_reply := fun _ => GetJson snapshot_auto;
     post_reply := fun _ => PostText "13";
     toISOString := fun _ => "2025-05-01T10:00:01Z" |}.

(** The channel takes the write of the manual mode and shows it at once. *)
Definition prompt : World :=
  {| get_reply := fun n => if (n <=? 0)%nat then GetJson snapshot_auto
                           else GetJson snapshot_manual;
     post_reply := fun _ => PostText "13";
     toISOString := fun _ => "2025-05-01T10:00:01Z" |}.

(** From [c], the component ended in [c'] on a read that brought a
    snapshot equal to [updates] at its first key; that snapshot is the
    stored one and no message is shown. *)
Definition ends_verified (updates : object) (c c' : Component) : Prop :=
  exists t newData,
    trace c' = trace c ++ t ++ [Get (GetJson newData)] /\
    index newData (first (keys updates)) = index updates (first (keys updates)) /\
    cell_channelData c' = newData /\
    cell_error c' = None.

(** The reply to a read shows [updates]: it brings a snapshot that equals
    [updates] at its first key. *)
Definition shows (updates : object) (reply : GetReply) : bool :=
  match reply with
  | GetJson newData =>
      strict_eq (index newData (first (keys updates)))
        (index updates (first (keys updates)))
  | _ => false
  end.

(** The reply to a read brings a snapshot. *)
Definition brings_snapshot (reply : GetReply) : bool :=
  match reply with
  | GetJson _ => true
  | _ => false
  end.

(** The channel is in the manual mode. *)
Definition switched : World :=
  {| get_reply := fun _ => GetJson snapshot_manual;
     post_reply := fun _ => PostText "13";
     toISOString := fun _ => "2025-05-01T10:00:01Z" |}.

(** A render whose snapshot has no mode field. *)
Definition showing_bare : Render :=
  {| readApiKey := "READ"; writeApiKey := "WRITE";
     channelData := snapshot_bare; activeTab := "auto" |}.

(** * Properties *)

(** ** Objects *)

Module JsFacts.

Lemma strict_eq_true (a b : value) : strict_eq a b = true <-> a = b.
Proof.
  destruct a as [|s], b as [|t]; simpl; split; intros H;
    try reflexivity; try discriminate.
  - apply String.eqb_eq in H. now subst.
  - injection H as ->. apply String.eqb_refl.
Qed.

Lemma get_from_app d k o1 o2 :
  get_from d k (o1 ++ o2) = get_from (get_from d k o1) k o2.
Proof. unfold get_from. apply fold_left_app. Qed.

Lemma get_from_has d k o :
  get_from d k o = if has k o then get k o else d.
Proof.
  unfold get. revert d.
  induction o as [|p o IH] using rev_ind; intros d; [reflexivity|].
  unfold has in *. rewrite !get_from_app, existsb_app. simpl.
  destruct (defines k p); simpl.
  - now rewrite orb_true_r.
  - rewrite orb_false_r. apply IH.
Qed.

Lemma get_app k o1 o2 :
  get k (o1 ++ o2) = if has k o2 then get k o2 else get k o1.
Proof. unfold get at 1. rewrite get_from_app. apply get_from_has. Qed.

Lemma has_app k o1 o2 : has k (o1 ++ o2) = has k o1 || has k o2.
Proof. apply existsb_app. Qed.

Lemma get_absent k o : has k o = false -> get k o = undefined.
Proof.
  intros H. unfold get. now rewrite get_from_has, H.
Qed.

Lemma get_set k k' v o :
  get k (set k' v o) = if String.eqb k k' then v else get k o.
Proof.
  unfold set. rewrite get_app. unfold has, get, get_from, defines. simpl.
  now destruct (String.eqb k k').
Qed.

(** Defining a property with the value it has changes no value. *)
Lemma get_set_same k k' o : get k (set k' (get k' o) o) = get k o.
Proof.
  rewrite get_set. destruct (String.eqb k k') eqn:E; [|reflexivity].
  apply String.eqb_eq in E. now subst.
Qed.

Lemma existsb_keys_from k seen o :
  existsb (String.eqb k) (keys_from seen o)
  = has k o && negb (existsb (String.eqb k) seen).
Proof.
  revert seen. induction o as [|[k' v] o IH]; intros seen; [reflexivity|].
  unfold has in *. simpl. unfold defines at 1. simpl.
  destruct (existsb (String.eqb k') seen) eqn:Es.
  - rewrite IH. destruct (String.eqb k k') eqn:E; [|reflexivity].
    apply String.eqb_eq in E. subst k'. rewrite Es. simpl.
    now rewrite andb_false_r.
  - simpl. rewrite IH. simpl.
    destruct (String.eqb k k') eqn:E; simpl.
    + apply String.eqb_eq in E. subst k'. now rewrite Es.
    + reflexivity.
Qed.

Lemma existsb_keys k o : existsb (String.eqb k) (keys o) = has k o.
Proof. unfold keys. rewrite existsb_keys_from. simpl. apply andb_true_r. Qed.

Lemma param_map k (f : string -> string) ks :
  param k (map (fun k' => (k', f k')) ks)
  = if existsb (String.eqb k) ks then Some (f k) else None.
Proof.
  induction ks as [|k' ks IH]; [reflexivity|]. simpl.
  destruct (String.eqb k k') eqn:E; simpl; [|exact IH].
  apply String.eqb_eq in E. now subst.
Qed.

(** [new URLSearchParams(o).get(k)] is [String(o[k])] when [k in o]. *)
Lemma param_URLSearchParams k o :
  param k (URLSearchParams o)
  = if has k o then Some (ToString (get k o)) else None.
Proof.
  unfold URLSearchParams.
  rewrite (param_map k (fun k' => ToString (get k' o))).
  now rewrite existsb_keys.
Qed.

(** The first key is the key of the first definition. *)
Lemma first_keys k v o : first (keys ((k, v) :: o)) = str k.
Proof. reflexivity. Qed.

End JsFacts.

(** ** The request of a write *)

Lemma param_write_params k w currentData updates ts :
  param k (URLSearchParams (write_params w currentData updates ts))
  = if String.eqb k "created_at" then Some ts
    else if has k updates then Some (ToString (get k updates))
    else if has k currentData then Some (ToString (get k currentData))
    else if String.eqb k "api_key" then Some w
    else None.
Proof.
  rewrite JsFacts.param_URLSearchParams. unfold write_params, set, spread.
  rewrite !JsFacts.has_app, !JsFacts.get_app.
  change (has k [("created_at", str ts)]) with (String.eqb k "created_at" || false).
  change (has k [("api_key", str w)]) with (String.eqb k "api_key" || false).
  rewrite !orb_false_r.
  destruct (String.eqb k "created_at") eqn:E1.
  - rewrite orb_true_r. unfold get, get_from, defines. simpl. now rewrite E1.
  - rewrite orb_false_r. destruct (has k updates); [now rewrite orb_true_r|].
    rewrite orb_false_r. destruct (has k currentData); [now rewrite orb_true_r|].
    rewrite orb_false_r. destruct (String.eqb k "api_key") eqn:E2; [|reflexivity].
    unfold get, get_from, defines. simpl. now rewrite E2.
Qed.

(** ** Numbers *)

Module FloatFacts.

Lemma Prim2SF_zero : Prim2SF 0%float = S754_zero false.
Proof. reflexivity. Qed.

Lemma SFeqb_irrefl_nan x : SFeqb x x = false -> x = S754_nan.
Proof.
  unfold SFeqb.
  destruct x as [s|s| |s m e]; simpl; try discriminate; try reflexivity.
  - now destruct s.
  - rewrite Z.compare_refl, Pos.compare_cont_refl. now destruct s.
Qed.

(** [NaN <= y] is false. *)
Lemma leb_nan x y : is_nan x = true -> (x <=? y)%float = false.
Proof.
  unfold is_nan. rewrite negb_true_iff, FloatAxioms.eqb_spec, leb_spec.
  intros H. now rewrite (SFeqb_irrefl_nan _ H).
Qed.

(** [x <= 0] is false when [0 < x]. *)
Lemma leb_positive x : (0 <? x)%float = true -> (x <=? 0)%float = false.
Proof.
  rewrite ltb_spec, leb_spec, Prim2SF_zero. unfold SFltb, SFleb.
  destruct (Prim2SF x) as [s|s| |s m e]; simpl; try discriminate;
    now destruct s.
Qed.

End FloatFacts.

(** ** Steps of the component *)

Section Properties.

Context {E : Environment}.


Lemma steps_refl r c c' :
  trace c' = trace c -> cell_activeTab c' = cell_activeTab c ->
  toasts c' = toasts c -> modeChangeInProgress c' = modeChangeInProgress c ->
  steps r c c' [].
Proof.
  intros Ht Ha Hs Hm. unfold steps. rewrite Ht, Ha, Hs, Hm. simpl.
  now rewrite app_nil_r, andb_true_r.
Qed.

Lemma steps_trans r c c1 c2 t1 t2 :
  steps r c c1 t1 -> steps r c1 c2 t2 -> steps r c c2 (t1 ++ t2).
Proof.
  intros (Ht1 & Ha1 & Hs1 & Hm1) (Ht2 & Ha2 & Hs2 & Hm2). unfold steps.
  rewrite Ht2, Ht1, Ha2, Ha1, Hs2, Hs1, Hm2, Hm1, existsb_app, negb_orb.
  now rewrite app_assoc, andb_assoc.
Qed.

Ltac run :=
  unfold fetchChannelData, try_catch_finally, bind, ret, throw, read,
    update, when, http_get, http_post, record, sleep, now, setLoading,
    setError, setUpdating, setChannelData, setActiveTab,
    set_modeChangeInProgress, clear_checkInterval, console_error, toast,
    next_get, next_post;
  simpl.

(** *** [fetchChannelData] *)

Lemma fetchChannelData_result r c :
  fst (fetchChannelData r c)
  = match next_get c with
    | GetRejects => Throw NetworkError
    | GetStatus status => Throw (ErreurHTTP status)
    | GetJson data => Return data
    end.
Proof.
  run. destruct (get_reply world _); simpl; try reflexivity.
  destruct (modeChangeInProgress c); simpl; [|reflexivity].
  destruct (currentMode data =? expectedMode r)%float; simpl; [|reflexivity].
  now destruct (checkInterval c).
Qed.

Lemma fetchChannelData_steps r c :
  steps r c (snd (fetchChannelData r c)) [Get (next_get c)].
Proof.
  unfold steps. run. destruct (get_reply world _); simpl;
    try (now rewrite andb_true_r).
  rewrite orb_false_r.
  destruct (modeChangeInProgress c); simpl; [|tauto].
  destruct (currentMode data =? expectedMode r)%float; simpl; [|tauto].
  now destruct (checkInterval c).
Qed.

Lemma fetchChannelData_snapshot r c :
  cell_channelData (snd (fetchChannelData r c))
  = match next_get c with
    | GetJson data => data
    | _ => cell_channelData c
    end.
Proof.
  run. destruct (get_reply world _); simpl; try reflexivity.
  destruct (modeChangeInProgress c); simpl; [|reflexivity].
  destruct (currentMode data =? expectedMode r)%float; simpl; [|reflexivity].
  now destruct (checkInterval c).
Qed.

(** *** [verifyUpdate] and the verification loop *)

Lemma verifyUpdate_eq r updates c :
  verifyUpdate r updates c
  = (match fst (fetchChannelData r c) with
     | Return newData =>
         Return (strict_eq (index newData (first (keys updates)))
                   (index updates (first (keys updates))))
     | Throw e => Throw e
     end, snd (fetchChannelData r c)).
Proof.
  unfold verifyUpdate, bind, ret.
  now destruct (fetchChannelData r c) as [[newData|e] c'].
Qed.

Lemma verify_loop_steps r updates n c :
  exists t, steps r c (snd (verify_loop r updates n c)) t /\ reads_only t.
Proof.
  revert c. induction n as [|n IH]; intros c.
  - exists []. split; [now apply steps_refl|constructor].
  - simpl. unfold bind at 1. rewrite verifyUpdate_eq.
    pose proof (fetchChannelData_steps r c) as Hf.
    destruct (fetchChannelData r c) as [[newData|e] c1]; simpl in *.
    + destruct (strict_eq _ _).
      * exists [Get (next_get c)]. split; [exact Hf|].
        repeat constructor.
      * unfold bind, sleep, record, update. simpl.
        match goal with |- context [verify_loop r updates n ?c2] =>
          destruct (IH c2) as (t & Ht & Hr);
          assert (H2 : steps r c1 c2 [Sleep 2000])
        end.
        { unfold steps. simpl. now rewrite andb_true_r. }
        exists ([Get (next_get c)] ++ [Sleep 2000] ++ t). split.
        -- eapply steps_trans; [exact Hf|]. eapply steps_trans; eassumption.
        -- constructor; [now left|]. constructor; [right; eauto|exact Hr].
    + exists [Get (next_get c)]. split; [exact Hf|]. repeat constructor.
Qed.

(** *** One attempt *)

Lemma attempt_eq r updates c :
  attempt r updates c
  = match fetchChannelData r (at_read c) with
    | (Throw e, c1) => (Throw e, c1)
    | (Return currentData, c1) =>
        let c2 := at_reply (request r updates currentData c1) c1 in
        match next_post c1 with
        | PostRejects => (Throw NetworkError, c2)
        | PostStatus status => (Throw (ErreurHTTP status), c2)
        | PostText result =>
            if (Number (str result) <=? 0)%float
            then (Throw (Error write_failed), c2)
            else after_verification (verify_loop r updates 3 c2)
        end
    end.
Proof.
  unfold attempt, at_read, at_reply, request.
  cbv beta iota zeta delta [bind setUpdating setError update snd].
  match goal with |- context [fetchChannelData r ?c0] =>
    destruct (fetchChannelData r c0) as [[currentData|e] c1] end;
    [|reflexivity].
  cbv beta iota zeta delta [bind now read http_post record update ret snd].
  destruct (next_post c1); try reflexivity.
  destruct (Number (str result) <=? 0)%float; [reflexivity|].
  unfold after_verification.
  destruct (verify_loop r updates 3 _) as [[[|]|e] c3]; reflexivity.
Qed.

Lemma at_read_steps r c : steps r c (at_read c) [].
Proof. now apply steps_refl. Qed.

Lemma at_reply_steps r q c : steps r c (at_reply q c) [Post q (next_post c)].
Proof. unfold steps. simpl. now rewrite andb_true_r. Qed.

Lemma steps_length r c c' t :
  steps r c c' t -> List.length (trace c') = (List.length (trace c) + List.length t)%nat.
Proof. intros (Ht & _). rewrite Ht. apply length_app. Qed.

(** *** Writes that merge the snapshot just read *)

Lemma writes_merge_reads_only r updates t :
  reads_only t -> forall n last, writes_merge r updates n last t.
Proof.
  induction 1 as [|e t [He|[ms ->]] _ IH]; intros n last; simpl; [exact I| |].
  - destruct e as [[| |data]| |]; try discriminate; apply IH.
  - apply IH.
Qed.

Lemma writes_merge_app r updates t1 t2 :
  forall n last,
    writes_merge r updates n last t1 ->
    writes_merge r updates (n + List.length t1) None t2 ->
    writes_merge r updates n last (t1 ++ t2).
Proof.
  induction t1 as [|e t1 IH]; intros n last H1 H2; simpl in *.
  - rewrite Nat.add_0_r in H2. destruct t2 as [|[[| |data]| |] t2]; simpl in *;
      try assumption. tauto.
  - rewrite <- Nat.add_succ_comm in H2.
    destruct e as [[| |data]|q reply|ms]; try (apply IH; assumption).
    destruct H1 as [Hq H1]. split; [exact Hq|]. now apply IH.
Qed.

(** In a record whose writes merge, the event before a write is the read of
    the snapshot that the write carries. *)
Lemma writes_merge_split r updates q reply post pre :
  forall n last,
    writes_merge r updates n last (pre ++ Post q reply :: post) ->
    (pre = [] /\ exists currentData, last = Some currentData /\
       q = URLSearchParams
             (write_params (writeApiKey r) currentData updates (toISOString world n)))
    \/
    (exists pre' currentData,
       pre = pre' ++ [Get (GetJson currentData)] /\
       q = URLSearchParams
             (write_params (writeApiKey r) currentData updates
                (toISOString world (n + List.length pre)))).
Proof.
  induction pre as [|e pre IH]; intros n last H; simpl in H.
  - left. split; [reflexivity|]. destruct last as [currentData|]; [|tauto].
    exists currentData. tauto.
  - right.
    assert (Hnext : exists last', writes_merge r updates (S n) last'
                                    (pre ++ Post q reply :: post) /\
                                  forall d, last' = Some d -> e = Get (GetJson d)).
    { destruct e as [[| |data]|q' reply'|ms];
        try (exists None; split; [tauto|discriminate]).
      exists (Some data). split; [exact H|]. now intros d [= ->]. }
    destruct Hnext as (last' & H' & He).
    destruct (IH _ _ H') as [(-> & d & -> & Hq)|(pre' & d & -> & Hq)].
    + exists [], d. rewrite (He d eq_refl). split; [reflexivity|].
      simpl. now rewrite Nat.add_1_r.
    + exists (e :: pre'), d. split; [reflexivity|].
      simpl. now rewrite <- Nat.add_succ_comm.
Qed.

Lemma attempt_returns_true r updates c b :
  fst (attempt r updates c) = Return b -> b = true.
Proof.
  rewrite attempt_eq.
  destruct (fetchChannelData r (at_read c)) as [[currentData|e] c1];
    [|discriminate].
  cbv zeta. destruct (next_post c1) as [| |result]; try discriminate.
  destruct (Number (str result) <=? 0)%float; [discriminate|].
  unfold after_verification.
  destruct (verify_loop r updates 3 _) as [[[|]|e] c3]; simpl;
    try discriminate.
  now intros [= <-].
Qed.

Lemma attempt_steps r updates c :
  exists t,
    steps r c (snd (attempt r updates c)) t /\
    writes_merge r updates (List.length (trace c)) None t.
Proof.
  rewrite attempt_eq.
  pose proof (fetchChannelData_steps r (at_read c)) as Hf.
  pose proof (fetchChannelData_result r (at_read c)) as Hr.
  pose proof (steps_trans _ _ _ _ _ _ (at_read_steps r c) Hf) as H1.
  destruct (fetchChannelData r (at_read c)) as [[currentData|e] c1];
    simpl in Hf, Hr, H1.
  - destruct (next_get (at_read c)) as [| |data] eqn:Eg; try discriminate.
    injection Hr as <-.
    set (q := request r updates currentData c1).
    pose proof (steps_trans _ _ _ _ _ _ H1 (at_reply_steps r q c1)) as H2.
    assert (Hq : writes_merge r updates (List.length (trace c)) None
                   [Get (GetJson currentData); Post q (next_post c1)]).
    { simpl. split; [|exact I]. unfold q, request.
      rewrite (steps_length _ _ _ _ H1). simpl. now rewrite Nat.add_1_r. }
    cbv zeta. fold q.
    destruct (next_post c1) as [| |result]; try (eexists; split; eassumption).
    destruct (Number (str result) <=? 0)%float;
      [eexists; split; eassumption|].
    destruct (verify_loop_steps r updates 3 (at_reply q c1)) as (t & Ht & Hro).
    exists (([] ++ [Get (GetJson currentData)]) ++ [Post q (PostText result)] ++ t).
    split.
    + rewrite app_assoc. eapply steps_trans; [exact H2|].
      unfold after_verification.
      now destruct (verify_loop r updates 3 _) as [[[|]|e] c3].
    + simpl. split; [apply Hq|]. now apply writes_merge_reads_only.
  - exists ([] ++ [Get (next_get (at_read c))]). split; [exact H1|].
    simpl. now destruct (next_get (at_read c)).
Qed.

(** *** The retry loop *)

Lemma attemptUpdate_eq r updates n ms attempts c :
  attemptUpdate r updates n ms attempts c
  = match attempt r updates c with
    | (Return b, c1) => (Return b, finished c1)
    | (Throw _, c1) =>
        if attempts + 1 <? n
        then let (res, c2) :=
               attemptUpdate r updates n ms (attempts + 1) (paused ms c1) in
             (res, finished c2)
        else (Return false, given_up c1)
    end.
Proof.
  rewrite attemptUpdate_equation_1. unfold try_catch_finally.
  destruct (attempt r updates c) as [[b|e] c1]; [reflexivity|].
  cbv zeta. destruct (Z_lt_dec (attempts + 1) n) as [Hlt|Hge].
  - apply Z.ltb_lt in Hlt. rewrite Hlt. unfold bind at 1. simpl.
    now destruct (attemptUpdate r updates n ms (attempts + 1) _) as [res c2].
  - apply Z.ltb_nlt in Hge. now rewrite Hge.
Qed.

Lemma finished_steps r c : steps r c (finished c) [].
Proof. now apply steps_refl. Qed.

Lemma given_up_steps r c : steps r c (given_up c) [].
Proof. now apply steps_refl. Qed.

Lemma paused_steps r ms c : steps r c (paused ms c) [Sleep ms].
Proof. unfold steps. simpl. now rewrite andb_true_r. Qed.

(** The executor always returns; what it did on the network, its writes
    merge, and it leaves the busy flag down and, when it fails, the terminal
    message up. *)
Lemma steps_quiet r c c1 c2 t :
  steps r c c1 t -> steps r c1 c2 [] -> steps r c c2 t.
Proof.
  intros H1 H2. rewrite <- (app_nil_r t). eapply steps_trans; eassumption.
Qed.

Lemma attemptUpdate_spec r updates n ms :
  forall m attempts c,
    (Z.to_nat (n - attempts) < m)%nat ->
    exists b t,
      fst (attemptUpdate r updates n ms attempts c) = Return b /\
      steps r c (snd (attemptUpdate r updates n ms attempts c)) t /\
      writes_merge r updates (List.length (trace c)) None t /\
      cell_updating (snd (attemptUpdate r updates n ms attempts c)) = false /\
      (b = false ->
       cell_error (snd (attemptUpdate r updates n ms attempts c))
       = Some terminal_message).
Proof.
  induction m as [|m IH]; intros attempts c Hm; [lia|].
  rewrite attemptUpdate_eq.
  destruct (attempt_steps r updates c) as (t1 & H1 & W1).
  pose proof (attempt_returns_true r updates c) as Htrue.
  destruct (attempt r updates c) as [[b|e] c1]; simpl in H1, Htrue.
  - exists b, t1. simpl. refine (conj eq_refl (conj _ (conj W1 (conj eq_refl _)))).
    + eapply steps_quiet; [exact H1|apply finished_steps].
    + intros ->. now specialize (Htrue false eq_refl).
  - destruct (Z.ltb_spec (attempts + 1) n) as [Hlt|Hge].
    + destruct (IH (attempts + 1) (paused ms c1))
        as (b & t & Hb & Hs & Hw & Hu & He); [lia|].
      pose proof (steps_trans _ _ _ _ _ _ H1 (paused_steps r ms c1)) as H2.
      rewrite (steps_length _ _ _ _ H2) in Hw.
      destruct (attemptUpdate r updates n ms (attempts + 1) (paused ms c1))
        as [res c2]; simpl in Hb, Hs, Hu, He |- *. subst res.
      exists b, ((t1 ++ [Sleep ms]) ++ t).
      refine (conj eq_refl (conj _ (conj _ (conj eq_refl He)))).
      * eapply steps_quiet; [|apply finished_steps].
        eapply steps_trans; eassumption.
      * apply writes_merge_app; [|exact Hw].
        apply writes_merge_app; [exact W1|exact I].
    + exists false, t1. simpl.
      refine (conj eq_refl (conj _ (conj W1 (conj eq_refl (fun _ => eq_refl))))).
      eapply steps_quiet; [exact H1|apply given_up_steps].
Qed.

Lemma updateThingSpeak_spec r updates options c :
  exists b t,
    fst (updateThingSpeak r updates options c) = Return b /\
    steps r c (snd (updateThingSpeak r updates options c)) t /\
    writes_merge r updates (List.length (trace c)) None t /\
    cell_updating (snd (updateThingSpeak r updates options c)) = false /\
    (b = false ->
     cell_error (snd (updateThingSpeak r updates options c))
     = Some terminal_message).
Proof. unfold updateThingSpeak. eapply attemptUpdate_spec. apply Nat.lt_succ_diag_r. Qed.


(** ** The snapshot reader and the pending flag *)

(** C10: while a mode change is pending, a fetched snapshot that has no
    [field7] counts as mode 0; when the render expects the automatic mode
    the pending flag is cleared and the confirmation timer is stopped
    ([checkInterval.current] is null and its timer no longer runs), although
    the snapshot has no mode field. *)
Theorem fetchChannelData_absent_mode_counts_as_auto (r : Render)
    (c : Component) (data : object) :
  modeChangeInProgress c = true ->
  next_get c = GetJson data ->
  get "field7" data = undefined ->
  activeTab r = "auto" ->
  currentMode data = 0%float /\
  modeChangeInProgress (snd (fetchChannelData r c)) = false /\
  checkInterval (snd (fetchChannelData r c)) = None /\
  (forall id, checkInterval c = Some id ->
              ~ In id (intervals (snd (fetchChannelData r c)))).
Proof.
  intros Hp Hg Hf Ha.
  assert (Hm : currentMode data = 0%float).
  { unfold currentMode. now rewrite Hf. }
  split; [exact Hm|].
  unfold next_get in Hg. run. rewrite Hg. simpl. rewrite Hp. simpl.
  rewrite Hm. unfold expectedMode. rewrite Ha.
  change (0 =? mode_of_tab "auto")%float with true. simpl.
  destruct (checkInterval c) as [id|] eqn:Ec; simpl; repeat split;
    try discriminate.
  intros id' [= <-] Hin. apply filter_In in Hin as [_ Hin].
  now rewrite Nat.eqb_refl in Hin.
Qed.

(** ** The mode toggle *)

(** C5: when the requested mode is the mode of the current snapshot
    ([Number(channelData.field7) === newMode]), [handleModeChange] only
    switches the tab: the executor is not called and nothing is sent. *)
Theorem handleModeChange_same_mode_sends_nothing (r : Render)
    (value : string) (c : Component) :
  (Number (get "field7" (channelData r)) =? mode_of_tab value)%float = true ->
  handleModeChange r value c = setActiveTab value c /\
  trace (snd (handleModeChange r value c)) = trace c.
Proof.
  intros H. unfold handleModeChange. unfold bind at 1. simpl.
  rewrite H. split; reflexivity.
Qed.

(** ** An attempt and the reply to its write *)

Lemma verify_loop_S r updates n :
  verify_loop r updates (S n)
  = (ok <- verifyUpdate r updates ;;
     if ok then ret true else (sleep 2000 ;; verify_loop r updates n)).
Proof. reflexivity. Qed.

#[local] Arguments verify_loop : simpl never.
#[local] Arguments after_verification : simpl never.

Lemma verify_loop_throws r updates n :
  forall c e,
    fst (verify_loop r updates n c) = Throw e -> forall msg, e <> Error msg.
Proof.
  induction n as [|n IH]; intros c e; [discriminate|].
  rewrite verify_loop_S. unfold bind at 1. rewrite verifyUpdate_eq.
  pose proof (fetchChannelData_result r c) as Hr.
  destruct (fetchChannelData r c) as [[newData|e'] c1]; simpl in *.
  - destruct (strict_eq _ _); [discriminate|].
    unfold bind at 1. simpl. apply IH.
  - intros [= <-]. destruct (next_get c); try discriminate;
      injection Hr as ->; discriminate.
Qed.

(** C9: a reply to the write whose body converts to [NaN] is not a
    rejection, [NaN <= 0] being false: the attempt goes on to the
    verification loop as after an accepted write. The rejection branch (the
    error "Échec de la mise à jour") is taken exactly when the body of the
    reply converts to a number that is at most 0. *)
Theorem attempt_rejects_nonpositive_only (r : Render) (updates : object)
    (c : Component) :
  (forall currentData result,
     next_get (at_read c) = GetJson currentData ->
     next_post (snd (fetchChannelData r (at_read c))) = PostText result ->
     is_nan (Number (str result)) = true ->
     rejects (PostText result) = false /\
     attempt r updates c
     = after_verification
         (verify_loop r updates 3
            (at_reply
               (request r updates currentData (snd (fetchChannelData r (at_read c))))
               (snd (fetchChannelData r (at_read c))))))
  /\
  (fst (attempt r updates c) = Throw (Error write_failed) <->
   exists currentData result,
     next_get (at_read c) = GetJson currentData /\
     next_post (snd (fetchChannelData r (at_read c))) = PostText result /\
     (Number (str result) <=? 0)%float = true).
Proof.
  rewrite attempt_eq.
  pose proof (fetchChannelData_result r (at_read c)) as Hr.
  destruct (fetchChannelData r (at_read c)) as [[data|e] c1];
    simpl in Hr; simpl snd; cbv zeta; split.
  - intros currentData result Hg Hp Hnan.
    rewrite Hg in Hr. injection Hr as ->. rewrite Hp.
    pose proof (FloatFacts.leb_nan _ 0%float Hnan) as Hle.
    now rewrite Hle.
  - destruct (next_get (at_read c)) as [| |data'] eqn:Hg; try discriminate.
    injection Hr as <-. split.
    + destruct (next_post c1) as [| |result]; try discriminate.
      destruct (Number (str result) <=? 0)%float eqn:Hle.
      * intros _. now exists data, result.
      * unfold after_verification.
        pose proof (verify_loop_throws r updates 3
                      (at_reply (request r updates data c1) c1)) as Ht.
        destruct (verify_loop r updates 3 _) as [[[|]|e] c3]; simpl in *;
          try discriminate.
        intros [= ->]. now destruct (Ht _ eq_refl write_failed).
    + intros (currentData & result & _ & -> & Hle). now rewrite Hle.
  - intros currentData result Hg. rewrite Hg in Hr. discriminate.
  - split.
    + intros [= ->]. destruct (next_get (at_read c)); discriminate.
    + intros (currentData & result & Hg & _). rewrite Hg in Hr. discriminate.
Qed.

(** ** The requests of the executor *)

Lemma steps_trace r c c' t : steps r c c' t -> trace c' = trace c ++ t.
Proof. now intros (Ht & _). Qed.

(** C3: every write request of the executor comes right after a read that
    brought a snapshot, and carries that snapshot merged with the update,
    the keys of the update first, and the time of the clock as [created_at]
    (and the write key where neither has an [api_key]). So when the same
    update is written twice and the second snapshot shows what the first
    write sent, the second request equals the first on every field (other
    than the [created_at] and [api_key] parameters), and outside the update
    it sends the fields of the first snapshot. *)
Theorem updateThingSpeak_writes_merge_snapshot (r : Render) (updates : object)
    (options : RetryOptions) (c : Component) :
  (exists t,
     trace (snd (updateThingSpeak r updates options c)) = trace c ++ t /\
     forall pre q reply post,
       t = pre ++ Post q reply :: post ->
       exists pre' currentData ts,
         pre = pre' ++ [Get (GetJson currentData)] /\
         ts = toISOString world (List.length (trace c ++ pre)) /\
         q = URLSearchParams (write_params (writeApiKey r) currentData updates ts) /\
         forall k,
           param k q
           = if String.eqb k "created_at" then Some ts
             else if has k updates then Some (ToString (get k updates))
             else if has k currentData then Some (ToString (get k currentData))
             else if String.eqb k "api_key" then Some (writeApiKey r)
             else None)
  /\
  (forall data1 data2 ts1 ts2,
     (forall k, k <> "created_at" -> k <> "api_key" ->
        param k (URLSearchParams data2)
        = param k (URLSearchParams (write_params (writeApiKey r) data1 updates ts1))) ->
     forall k, k <> "created_at" -> k <> "api_key" ->
       param k (URLSearchParams (write_params (writeApiKey r) data2 updates ts2))
       = param k (URLSearchParams (write_params (writeApiKey r) data1 updates ts1))
       /\
       (has k updates = false ->
        param k (URLSearchParams (write_params (writeApiKey r) data2 updates ts2))
        = param k (URLSearchParams data1))).
Proof.
  split.
  - destruct (updateThingSpeak_spec r updates options c)
      as (b & t & _ & Hs & Hw & _).
    exists t. split; [now apply (steps_trace r)|].
    intros pre q reply post ->.
    destruct (writes_merge_split _ _ _ _ _ _ _ _ Hw)
      as [(_ & d & [=] & _)|(pre' & currentData & -> & ->)].
    exists pre', currentData, (toISOString world (List.length (trace c ++ pre' ++ [Get (GetJson currentData)]))).
    rewrite length_app. repeat split. intros k. apply param_write_params.
  - intros data1 data2 ts1 ts2 H k Hc Ha.
    specialize (H k Hc Ha). rewrite !param_write_params in *.
    rewrite JsFacts.param_URLSearchParams in *.
    apply String.eqb_neq in Hc, Ha. rewrite Hc, Ha in *.
    destruct (has k updates); split; try reflexivity; try discriminate.
    + now rewrite <- H.
    + intros _. rewrite <- H. reflexivity.
Qed.

(** ** The retry budget *)

Lemma attempt_refused r updates c :
  (forall k, rejects (post_reply world k) = true) ->
  exists e t,
    fst (attempt r updates c) = Throw e /\
    trace (snd (attempt r updates c)) = trace c ++ t /\
    refused_attempt t.
Proof.
  intros Hrej. rewrite attempt_eq.
  pose proof (fetchChannelData_steps r (at_read c)) as Hf.
  pose proof (fetchChannelData_result r (at_read c)) as Hr.
  apply (steps_trace r) in Hf. change (trace (at_read c)) with (trace c) in Hf.
  destruct (fetchChannelData r (at_read c)) as [[currentData|e] c1];
    simpl in Hf, Hr; cbv zeta.
  - destruct (next_get (at_read c)) as [| |data] eqn:Hg; try discriminate.
    specialize (Hrej (count is_Post (trace c1))). fold (next_post c1) in Hrej.
    set (q := request r updates currentData c1).
    assert (Ht : trace (at_reply q c1)
                 = trace c ++ [Get (GetJson data); Post q (next_post c1)]).
    { simpl. rewrite Hf. now rewrite <- app_assoc. }
    assert (Hb : refused_attempt [Get (GetJson data); Post q (next_post c1)]).
    { right. now exists data, q, (next_post c1). }
    destruct (next_post c1) as [| |result]; try discriminate.
    unfold rejects in Hrej. rewrite Hrej. cbn [fst snd]. eauto.
  - exists e, [Get (next_get (at_read c))]. repeat split; [exact Hf|].
    left. exists (count is_Get (trace (at_read c))). split; [reflexivity|].
    fold (next_get (at_read c)). intros data Hd. now rewrite Hd in Hr.
Qed.

Lemma attemptUpdate_refused r updates n ms :
  (forall k, rejects (post_reply world k) = true) ->
  forall m attempts c,
    Z.max 1 (n - attempts) = Z.of_nat (S m) ->
    fst (attemptUpdate r updates n ms attempts c) = Return false /\
    cell_error (snd (attemptUpdate r updates n ms attempts c))
    = Some terminal_message /\
    cell_updating (snd (attemptUpdate r updates n ms attempts c)) = false /\
    exists t,
      trace (snd (attemptUpdate r updates n ms attempts c)) = trace c ++ t /\
      refused_attempts ms (S m) t.
Proof.
  intros Hrej. induction m as [|m IH]; intros attempts c Hm;
    rewrite attemptUpdate_eq;
    destruct (attempt_refused r updates c Hrej) as (e & b & He & Ht & Hb);
    destruct (attempt r updates c) as [[ok|e'] c1]; simpl in He, Ht;
    try discriminate.
  - destruct (Z.ltb_spec (attempts + 1) n) as [Hlt|Hge]; [lia|].
    repeat split. exists b. split; [exact Ht|now constructor].
  - destruct (Z.ltb_spec (attempts + 1) n) as [Hlt|Hge]; [|lia].
    destruct (IH (attempts + 1) (paused ms c1)) as (Hf & Her & Hu & t & Ht' & Hr);
      [lia|].
    destruct (attemptUpdate r updates n ms (attempts + 1) (paused ms c1))
      as [res c2]; simpl in Hf, Her, Hu, Ht' |- *.
    repeat split; try assumption.
    exists (b ++ Sleep ms :: t). split; [|now constructor].
    rewrite Ht', Ht, <- !app_assoc. reflexivity.
Qed.

Lemma count_app p t1 t2 : count p (t1 ++ t2) = (count p t1 + count p t2)%nat.
Proof. unfold count. now rewrite filter_app, length_app. Qed.

Lemma refused_attempts_count ms n t :
  refused_attempts ms n t ->
  count is_Get t = n /\
  count is_Sleep t = (n - 1)%nat /\
  count is_Post t = count is_snapshot t /\
  (count is_Post t <= n)%nat /\
  (forall ms', In (Sleep ms') t -> ms' = ms).
Proof.
  assert (Hblock : forall b, refused_attempt b ->
            count is_Get b = 1%nat /\ count is_Sleep b = 0%nat /\
            count is_Post b = count is_snapshot b /\
            (count is_Post b <= 1)%nat /\
            forall ms', ~ In (Sleep ms') b).
  { intros b [(k & -> & Hk)|(data & q & reply & -> & _)]; unfold count; simpl.
    - repeat split; try lia.
      + destruct (get_reply world k) as [| |data]; try reflexivity.
        now destruct (Hk data).
      + intros ms' [H|[]]. discriminate.
    - repeat split; try lia. intros ms' [H|[H|[]]]; discriminate. }
  induction 1 as [b Hb|b n t Hb Ht (IH1 & IH2 & IH3 & IH4 & IH5)];
    destruct (Hblock b Hb) as (B1 & B2 & B3 & B4 & B5).
  - repeat split; try assumption. intros ms' H. now destruct (B5 ms').
  - change (Sleep ms :: t) with ([Sleep ms] ++ t).
    rewrite !count_app. change (count is_Get [Sleep ms]) with 0%nat.
    change (count is_Sleep [Sleep ms]) with 1%nat.
    change (count is_Post [Sleep ms]) with 0%nat.
    change (count is_snapshot [Sleep ms]) with 0%nat.
    repeat split; try lia.
    + inversion Ht; subst; lia.
    + intros ms' H. apply in_app_or in H as [H|[H|H]].
      * now destruct (B5 ms').
      * now injection H.
      * now apply IH5.
Qed.

(** Without a budget ([retries <= 0]) the executor still makes its one
    attempt. *)
Lemma updateThingSpeak_attempts_once_without_budget r updates options c :
  (forall k, rejects (post_reply world k) = true) ->
  default 5 (retries options) <= 0 ->
  fst (updateThingSpeak r updates options c) = Return false /\
  exists t,
    trace (snd (updateThingSpeak r updates options c)) = trace c ++ t /\
    refused_attempt t.
Proof.
  intros Hrej Hn. unfold updateThingSpeak.
  destruct (attemptUpdate_refused r updates (default 5 (retries options))
              (default 2000 (delay options)) Hrej 0 0 c)
    as (Hf & _ & _ & t & Ht & Hr); [lia|].
  split; [exact Hf|]. exists t. split; [exact Ht|].
  inversion Hr as [b Hb|b n t' Hb Ht']; subst; [exact Hb|inversion Ht'].
Qed.

(** When every read brings a snapshot, every refused attempt has its write. *)
Lemma refused_attempts_all_written ms n t :
  (forall k, exists data, get_reply world k = GetJson data) ->
  refused_attempts ms n t -> count is_Post t = n.
Proof.
  intros Hall H.
  destruct (refused_attempts_count _ _ _ H) as (Hg & _ & Hp & _). rewrite Hp, <- Hg.
  clear Hp Hg.
  assert (Hblock : forall b, refused_attempt b ->
                     count is_snapshot b = count is_Get b).
  { intros b [(k & -> & Hk)|(data & q & reply & -> & _)]; [|reflexivity].
    destruct (Hall k) as (data & Hd). now destruct (Hk data). }
  induction H as [b Hb|b n t Hb Ht IH].
  - now apply Hblock.
  - change (Sleep ms :: t) with ([Sleep ms] ++ t). rewrite !count_app.
    rewrite (Hblock b Hb), IH. reflexivity.
Qed.

(** C2, as the code has it: when the write endpoint rejects every write
    (the body of each reply converts to a number that is at most 0), the
    executor called with the budget [retries] makes exactly
    [max(1, retries)] attempts, so [retries] of them for [retries >= 1] and
    one for [retries <= 0], each with one read and (when the read brought a
    snapshot) one write. It pauses [delay] between an attempt and the next
    and at no other time, and then returns [false]: it does not throw, has
    set the terminal message and lowered the busy flag. *)
Theorem updateThingSpeak_gives_up_after_budget (r : Render)
    (updates : object) (options : RetryOptions) (c : Component) :
  (forall k, rejects (post_reply world k) = true) ->
  fst (updateThingSpeak r updates options c) = Return false /\
  cell_error (snd (updateThingSpeak r updates options c)) = Some terminal_message /\
  cell_updating (snd (updateThingSpeak r updates options c)) = false /\
  exists t,
    trace (snd (updateThingSpeak r updates options c)) = trace c ++ t /\
    refused_attempts (default 2000 (delay options))
      (Z.to_nat (Z.max 1 (default 5 (retries options)))) t /\
    count is_Get t = Z.to_nat (Z.max 1 (default 5 (retries options))) /\
    count is_Sleep t
    = (Z.to_nat (Z.max 1 (default 5%Z (retries options))) - 1)%nat /\
    (count is_Post t <= Z.to_nat (Z.max 1 (default 5%Z (retries options))))%nat /\
    ((forall k, exists data, get_reply world k = GetJson data) ->
     count is_Post t = Z.to_nat (Z.max 1 (default 5 (retries options)))) /\
    (forall ms, In (Sleep ms) t -> ms = default 2000 (delay options)).
Proof.
  intros Hrej. unfold updateThingSpeak.
  set (n := default 5 (retries options)) in *.
  set (ms := default 2000 (delay options)).
  destruct (attemptUpdate_refused r updates n ms Hrej
              (Z.to_nat (Z.max 1 n) - 1) 0 c)
    as (Hf & He & Hu & t & Ht & Hr); [lia|].
  replace (S (Z.to_nat (Z.max 1 n) - 1)) with (Z.to_nat (Z.max 1 n)) in Hr by lia.
  repeat split; try assumption. exists t.
  destruct (refused_attempts_count _ _ _ Hr) as (H1 & H2 & H3 & H4 & H5).
  repeat split; try assumption.
  intros Hall. now apply (refused_attempts_all_written ms).
Qed.

(** ** The handlers *)

Lemma handleModeChange_eq r value c :
  (Number (get "field7" (channelData r)) =? mode_of_tab value)%float = false ->
  handleModeChange r value c
  = match updateThingSpeak r (mode_update value) elevated (requested value c) with
    | (Return success, c1) =>
        ((if success
          then toast "Succès"
                 ("Mode " ++ (if String.eqb value "auto" then "automatique" else "manuel")
                  ++ " adopté")
          else setActiveTab (if (mode_of_tab value =? 0)%float then "manual" else "auto")) ;;
         set_modeChangeInProgress false ;;
         setUpdating false) c1
    | (Throw e, c1) => (Throw e, c1)
    end.
Proof.
  intros H. unfold handleModeChange. unfold bind at 1. simpl.
  rewrite H. unfold when, negb. unfold bind at 1 2 3. reflexivity.
Qed.


(** C6: when the mode toggle runs the executor and the executor fails,
    [handleModeChange] sets the tab to the inverse of the requested mode
    ("manual" when the automatic mode was requested, "auto" otherwise), and
    it ends with the pending flag cleared whether the executor succeeded or
    failed (on success the tab stays the requested one). *)
Theorem handleModeChange_reverts_tab_on_failure (r : Render) (value : string)
    (c : Component) :
  (Number (get "field7" (channelData r)) =? mode_of_tab value)%float = false ->
  exists success,
    fst (updateThingSpeak r (mode_update value) elevated (requested value c))
    = Return success /\
    fst (handleModeChange r value c) = Return tt /\
    modeChangeInProgress (snd (handleModeChange r value c)) = false /\
    (success = false ->
     cell_activeTab (snd (handleModeChange r value c))
     = if (mode_of_tab value =? 0)%float then "manual" else "auto") /\
    (success = true ->
     cell_activeTab (snd (handleModeChange r value c)) = value).
Proof.
  intros H. rewrite (handleModeChange_eq _ _ _ H).
  destruct (updateThingSpeak_spec r (mode_update value) elevated (requested value c))
    as (b & t & Hb & (_ & Ha & _) & _).
  destruct (updateThingSpeak r (mode_update value) elevated (requested value c))
    as [res c1]; simpl in Hb, Ha. subst res.
  exists b. destruct b; simpl; repeat split; try discriminate.
  intros _. exact Ha.
Qed.

Lemma handlePumpToggle_eq r c :
  handlePumpToggle r c
  = match updateThingSpeak r (pump_update r) elevated (snd (setUpdating true c)) with
    | (Return success, c1) =>
        ((if success
          then toast "Succès"
                 ("La pompe a été "
                  ++ (if String.eqb
                           (if strict_eq (get "field5" (channelData r)) (str "1")
                            then "0" else "1") "1"
                      then "activée" else "désactivée")
                  ++ " manuellement")
          else setChannelData (fun prev => set "field5" (get "field5" prev) prev)) ;;
         setUpdating false) c1
    | (Throw e, c1) => (Throw e, c1)
    end.
Proof. reflexivity. Qed.

(** C7: when the executor fails, the revert of [handlePumpToggle] sets
    [field5] of the stored snapshot to the value it has: every field of the
    snapshot reads after the handler as it read when the executor
    returned. *)
Theorem handlePumpToggle_failed_revert_keeps_snapshot (r : Render)
    (c : Component) :
  fst (updateThingSpeak r (pump_update r) elevated (snd (setUpdating true c)))
  = Return false ->
  cell_channelData (snd (handlePumpToggle r c))
  = set "field5"
      (get "field5"
         (cell_channelData
            (snd (updateThingSpeak r (pump_update r) elevated
                    (snd (setUpdating true c))))))
      (cell_channelData
         (snd (updateThingSpeak r (pump_update r) elevated
                 (snd (setUpdating true c))))) /\
  forall k,
    get k (cell_channelData (snd (handlePumpToggle r c)))
    = get k (cell_channelData
               (snd (updateThingSpeak r (pump_update r) elevated
                       (snd (setUpdating true c))))).
Proof.
  intros H. rewrite handlePumpToggle_eq.
  destruct (updateThingSpeak r (pump_update r) elevated (snd (setUpdating true c)))
    as [res c1]; simpl in H. subst res. simpl.
  split; [reflexivity|]. intros k. apply JsFacts.get_set_same.
Qed.


(** ** The empty update *)

(** A snapshot with the keys of [ChannelData] has no property named
    "undefined". *)
Lemma ChannelData_no_undefined o :
  is_ChannelData o = true -> get "undefined" o = undefined.
Proof.
  intros H. apply JsFacts.get_absent. unfold has.
  apply not_true_is_false. intros Hex.
  apply existsb_exists in Hex as (p & Hin & Hp).
  unfold is_ChannelData in H. rewrite forallb_forall in H.
  specialize (H p Hin). unfold defines in Hp.
  apply String.eqb_eq in Hp. rewrite <- Hp in H. discriminate.
Qed.

Lemma count_snoc p t e :
  count p (t ++ [e]) = (count p t + if p e then 1 else 0)%nat.
Proof. rewrite count_app. unfold count at 2. simpl. now destruct (p e). Qed.

(** C8: with an empty update the verification compares [newData[undefined]]
    with [updates[undefined]], two undefined values, and succeeds on the
    first re-read: an attempt whose write is answered by a positive number
    reports success after one re-read, whatever the fields of the snapshot it
    brings (a snapshot has no property named "undefined"). *)
Theorem updateThingSpeak_empty_update_verifies_nothing (r : Render)
    (options : RetryOptions) (c : Component) (data newData : object)
    (result : string) :
  get_reply world (count is_Get (trace c)) = GetJson data ->
  post_reply world (count is_Post (trace c)) = PostText result ->
  (0 <? Number (str result))%float = true ->
  get_reply world (S (count is_Get (trace c))) = GetJson newData ->
  get "undefined" newData = undefined ->
  first (keys []) = undefined /\
  index newData undefined = index [] undefined /\
  fst (updateThingSpeak r [] options c) = Return true /\
  exists q,
    trace (snd (updateThingSpeak r [] options c))
    = trace c ++ [Get (GetJson data); Post q (PostText result);
                  Get (GetJson newData)].
Proof.
  intros Hg Hp Hpos Hg' Hu.
  split; [reflexivity|]. split; [exact Hu|].
  enough (exists q c3,
            updateThingSpeak r [] options c = (Return true, c3) /\
            trace c3 = trace c ++ [Get (GetJson data); Post q (PostText result);
                                   Get (GetJson newData)])
    as (q & c3 & -> & Ht) by (split; [reflexivity|now exists q]).
  unfold updateThingSpeak. rewrite attemptUpdate_eq, attempt_eq.
  pose proof (fetchChannelData_steps r (at_read c)) as Hs.
  pose proof (fetchChannelData_result r (at_read c)) as Hr.
  apply (steps_trace r) in Hs. change (trace (at_read c)) with (trace c) in Hs.
  unfold next_get in Hr, Hs. change (trace (at_read c)) with (trace c) in Hr, Hs.
  rewrite Hg in Hr, Hs.
  destruct (fetchChannelData r (at_read c)) as [[currentData|e] c1];
    simpl in Hr, Hs; [|discriminate]. injection Hr as ->. cbv zeta.
  set (q := request r [] data c1).
  assert (Hp1 : next_post c1 = PostText result).
  { unfold next_post. rewrite Hs, count_snoc. simpl. now rewrite Nat.add_0_r. }
  assert (Ht2 : trace (at_reply q c1)
                = trace c ++ [Get (GetJson data); Post q (PostText result)]).
  { simpl. rewrite Hp1, Hs, <- app_assoc. reflexivity. }
  rewrite Hp1, (FloatFacts.leb_positive _ Hpos).
  rewrite verify_loop_S. unfold bind at 1. rewrite verifyUpdate_eq.
  pose proof (fetchChannelData_steps r (at_reply q c1)) as Hs2.
  pose proof (fetchChannelData_result r (at_reply q c1)) as Hr2.
  apply (steps_trace r) in Hs2. unfold next_get in Hr2, Hs2.
  rewrite Ht2 in Hr2, Hs2.
  replace (count is_Get (trace c ++ [Get (GetJson data); Post q (PostText result)]))
    with (S (count is_Get (trace c))) in Hr2, Hs2
    by (rewrite count_app; unfold count at 3; simpl; lia).
  rewrite Hg' in Hr2, Hs2.
  destruct (fetchChannelData r (at_reply q c1)) as [res c3]; simpl in Hr2, Hs2.
  subst res. cbn [fst snd].
  change (index newData (first (keys []))) with (get "undefined" newData).
  rewrite Hu. exists q, (finished c3). split; [reflexivity|].
  change (trace (finished c3)) with (trace c3).
  rewrite Hs2, <- app_assoc. reflexivity.
Qed.

End Properties.

(** * The properties at work *)

(** ** Runs *)

(** The component mounts on the automatic tab, and the render that follows
    the first snapshot is [showing_auto]. *)
Example mount_shows_auto :
  activeTab (render "READ" "WRITE" mount) = "auto" /\
  render "READ" "WRITE" loaded = showing_auto.
Proof. split; reflexivity. Qed.

(** Only the first key is verified: the update sets the mode and the pump,
    the snapshot shows the mode and not the pump, and the verification
    succeeds. *)
Example verifyUpdate_ignores_second_key :
  fst (verifyUpdate (E := with_world {| get_reply := fun _ => GetJson snapshot_manual;
                                        post_reply := fun _ => PostText "13";
                                        toISOString := fun _ => "" |})
         showing_auto [("field7", str "1"); ("field5", str "1")] loaded)
  = Return true.
Proof. reflexivity. Qed.

(** The mode toggle from the automatic to the manual mode on a channel that
    takes the write and shows it late: one write, verified by the second
    re-read. *)
Example handleModeChange_settles :
  let c := snd (handleModeChange (E := with_world settling) showing_auto "manual" loaded) in
  trace c
  = [Get (GetJson snapshot_auto);
     Post [("api_key", "WRITE"); ("created_at", "2025-05-01T10:00:01Z");
           ("field3", "41"); ("field5", "0"); ("field7", "1")] (PostText "13");
     Get (GetJson snapshot_auto);
     Sleep 2000;
     Get (GetJson snapshot_manual)] /\
  toasts c = [("Succès", "Mode manuel adopté")] /\
  cell_activeTab c = "manual" /\
  modeChangeInProgress c = false /\
  cell_updating c = false.
Proof. vm_compute. repeat split. Qed.

(** A reply that is no number: the attempt goes through the three rounds of
    the verification, and fails on them. *)
Example attempt_verifies_after_garbled_reply :
  attempt (E := with_world garbled) showing_auto [("field5", str "1")] loaded
  = (Throw (Error sync_failed),
     snd (attempt (E := with_world garbled) showing_auto [("field5", str "1")] loaded)) /\
  count is_Get
    (trace (snd (attempt (E := with_world garbled) showing_auto
                   [("field5", str "1")] loaded))) = 4%nat /\
  count is_Post
    (trace (snd (attempt (E := with_world garbled) showing_auto
                   [("field5", str "1")] loaded))) = 1%nat.
Proof. vm_compute. repeat split. Qed.

(** The fetch functions that a mode toggle runs are those of the render the
    toggle was made in: they expect the mode of the tab of that render. Here
    the user asks for the manual mode on the automatic tab; the first read of
    the cycle shows the automatic mode and clears the pending flag. *)
Example fetch_of_the_toggling_render_expects_its_tab :
  modeChangeInProgress (at_read (requested "manual" loaded)) = true /\
  (currentMode (E := with_world refusing) snapshot_auto =? mode_of_tab "manual")%float
  = false /\
  modeChangeInProgress
    (snd (fetchChannelData (E := with_world refusing) showing_auto
            (at_read (requested "manual" loaded)))) = false.
Proof. vm_compute. repeat split. Qed.

(** ** Instances of the theorems *)

Lemma updateThingSpeak_gives_up_after_budget_witness :
  (forall k, rejects (E := with_world refusing) (post_reply refusing k) = true) /\
  fst (updateThingSpeak (E := with_world refusing) showing_auto
         [("field5", str "1")] {| retries := None; delay := None |} loaded)
  = Return false /\
  count is_Post
    (trace (snd (updateThingSpeak (E := with_world refusing) showing_auto
                   [("field5", str "1")] {| retries := None; delay := None |}
                   loaded))) = 5%nat.
Proof.
  assert (Hrej : forall k, rejects (E := with_world refusing)
                             (post_reply refusing k) = true)
    by (intros k; reflexivity).
  split; [exact Hrej|].
  destruct (updateThingSpeak_gives_up_after_budget (E := with_world refusing)
              showing_auto [("field5", str "1")]
              {| retries := None; delay := None |} loaded Hrej)
    as (Hf & _ & _ & t & Ht & _ & _ & _ & _ & Hall & _).
  split; [exact Hf|]. rewrite Ht. apply Hall.
  intros k. now exists snapshot_auto.
Defined.

(** C2, as it is claimed, at the budget 0 on a channel that rejects every
    write: the executor does not make 0 attempts, it reads and writes
    once. *)
Lemma updateThingSpeak_attempts_with_budget_zero :
  ~ ((forall k, rejects (E := with_world refusing) (post_reply refusing k) = true) ->
     count is_Post
       (trace (snd (updateThingSpeak (E := with_world refusing) showing_auto
                      [("field5", str "1")]
                      {| retries := Some 0; delay := None |} loaded)))
     = Z.to_nat 0 /\
     count is_Get
       (trace (snd (updateThingSpeak (E := with_world refusing) showing_auto
                      [("field5", str "1")]
                      {| retries := Some 0; delay := None |} loaded)))
     = Z.to_nat 0).
Proof.
  intros H. destruct H as [H _]; [intros k; reflexivity|].
  vm_compute in H. discriminate H.
Qed.

Lemma handleModeChange_same_mode_sends_nothing_witness :
  (Number (E := with_world refusing) (get "field7" (channelData showing_auto))
   =? mode_of_tab "auto")%float = true /\
  trace (snd (handleModeChange (E := with_world refusing) showing_auto "auto" loaded))
  = trace loaded.
Proof.
  split; [reflexivity|].
  apply (handleModeChange_same_mode_sends_nothing (E := with_world refusing)).
  reflexivity.
Defined.

Lemma handleModeChange_reverts_tab_on_failure_witness :
  fst (updateThingSpeak (E := with_world unreachable) showing_auto
         (mode_update "manual") elevated (requested "manual" loaded))
  = Return false /\
  cell_activeTab
    (snd (handleModeChange (E := with_world unreachable) showing_auto "manual" loaded))
  = "auto" /\
  modeChangeInProgress
    (snd (handleModeChange (E := with_world unreachable) showing_auto "manual" loaded))
  = false.
Proof.
  destruct (handleModeChange_reverts_tab_on_failure (E := with_world unreachable)
              showing_auto "manual" loaded eq_refl)
    as (success & Hs & _ & Hm & Hfail & _).
  assert (Hf : fst (updateThingSpeak (E := with_world unreachable) showing_auto
                      (mode_update "manual") elevated (requested "manual" loaded))
               = Return false) by (vm_compute; reflexivity).
  split; [exact Hf|]. split; [|exact Hm].
  rewrite Hf in Hs. injection Hs as <-. now apply Hfail.
Defined.

Lemma handlePumpToggle_failed_revert_keeps_snapshot_witness :
  fst (updateThingSpeak (E := with_world unreachable) showing_auto
         (pump_update showing_auto) elevated (snd (setUpdating true loaded)))
  = Return false /\
  get "field5"
    (cell_channelData
       (snd (handlePumpToggle (E := with_world unreachable) showing_auto loaded)))
  = str "0".
Proof.
  assert (Hf : fst (updateThingSpeak (E := with_world unreachable) showing_auto
                      (pump_update showing_auto) elevated
                      (snd (setUpdating true loaded)))
               = Return false) by (vm_compute; reflexivity).
  split; [exact Hf|].
  destruct (handlePumpToggle_failed_revert_keeps_snapshot
              (E := with_world unreachable) showing_auto loaded Hf) as [_ Hk].
  rewrite Hk. vm_compute. reflexivity.
Defined.

Lemma updateThingSpeak_empty_update_verifies_nothing_witness :
  (0 <? Number (E := with_world settling) (str "13"))%float = true /\
  get "undefined" snapshot_auto = undefined /\
  fst (updateThingSpeak (E := with_world settling) showing_auto []
         {| retries := None; delay := None |} loaded)
  = Return true.
Proof.
  split; [reflexivity|]. split; [reflexivity|].
  apply (updateThingSpeak_empty_update_verifies_nothing (E := with_world settling)
           showing_auto {| retries := None; delay := None |} loaded
           snapshot_auto snapshot_auto "13"); reflexivity.
Defined.

Lemma fetchChannelData_absent_mode_counts_as_auto_witness :
  get "field7" snapshot_bare = undefined /\
  modeChangeInProgress
    (snd (fetchChannelData (E := with_world modeless) showing_auto pending))
  = false /\
  checkInterval
    (snd (fetchChannelData (E := with_world modeless) showing_auto pending))
  = None /\
  ~ In 7%nat
      (intervals
         (snd (fetchChannelData (E := with_world modeless) showing_auto pending))).
Proof.
  split; [reflexivity|].
  destruct (fetchChannelData_absent_mode_counts_as_auto (E := with_world modeless)
              showing_auto pending snapshot_bare eq_refl eq_refl eq_refl eq_refl)
    as (_ & Hm & Hc & Hi).
  split; [exact Hm|]. split; [exact Hc|]. now apply Hi.
Defined.

(** ** The pending flag is also cleared without a confirming snapshot *)


(** * More of the component *)

Section MoreProperties.

Context {E : Environment}.

#[local] Arguments verify_loop : simpl never.
#[local] Arguments after_verification : simpl never.

Ltac run_fetch :=
  unfold fetchChannelData, try_catch_finally, bind, ret, throw, read,
    update, when, http_get, record, setLoading, setError, setChannelData,
    set_modeChangeInProgress, clear_checkInterval, console_error, next_get;
  simpl.

(** ** The snapshot reader *)

Lemma fetchChannelData_cells r c :
  cell_loading (snd (fetchChannelData r c)) = false /\
  cell_updating (snd (fetchChannelData r c)) = cell_updating c /\
  cell_error (snd (fetchChannelData r c))
  = match next_get c with
    | GetJson _ => None
    | _ => Some fetch_failed
    end.
Proof.
  run_fetch. destruct (get_reply world _); simpl; try (repeat split; reflexivity).
  destruct (modeChangeInProgress c); simpl; [|repeat split; reflexivity].
  destruct (currentMode data =? expectedMode r)%float; simpl;
    [|repeat split; reflexivity].
  destruct (checkInterval c); repeat split; reflexivity.
Qed.

Lemma fetchChannelData_timers r c :
  modeChangeInProgress c = false ->
  checkInterval (snd (fetchChannelData r c)) = checkInterval c /\
  intervals (snd (fetchChannelData r c)) = intervals c.
Proof.
  intros H. run_fetch. destruct (get_reply world _); simpl;
    try (split; reflexivity).
  rewrite H. split; reflexivity.
Qed.

(** X1: a fetch whose read fails throws the failure, keeps the stored
    snapshot and shows the fetch message; a fetch whose read brings a
    snapshot returns it, stores it in place of the old one and shows no
    message. In both cases the read is recorded, the loading flag is down at
    the end and the busy flag is as it was. *)
Theorem fetchChannelData_outcome (r : Render) (c : Component) :
  trace (snd (fetchChannelData r c)) = trace c ++ [Get (next_get c)] /\
  cell_loading (snd (fetchChannelData r c)) = false /\
  cell_updating (snd (fetchChannelData r c)) = cell_updating c /\
  match next_get c with
  | GetJson data =>
      fst (fetchChannelData r c) = Return data /\
      cell_channelData (snd (fetchChannelData r c)) = data /\
      cell_error (snd (fetchChannelData r c)) = None
  | GetRejects =>
      fst (fetchChannelData r c) = Throw NetworkError /\
      cell_channelData (snd (fetchChannelData r c)) = cell_channelData c /\
      cell_error (snd (fetchChannelData r c)) = Some fetch_failed
  | GetStatus status =>
      fst (fetchChannelData r c) = Throw (ErreurHTTP status) /\
      cell_channelData (snd (fetchChannelData r c)) = cell_channelData c /\
      cell_error (snd (fetchChannelData r c)) = Some fetch_failed
  end.
Proof.
  destruct (fetchChannelData_cells r c) as (Hl & Hu & He).
  pose proof (fetchChannelData_result r c) as Hr.
  pose proof (fetchChannelData_snapshot r c) as Hs.
  destruct (fetchChannelData_steps r c) as (Ht & _).
  split; [exact Ht|]. split; [exact Hl|]. split; [exact Hu|].
  destruct (next_get c); repeat split; assumption.
Qed.

(** ** How the executor ends *)

Lemma ends_verified_after updates c c1 c' t0 :
  trace c1 = trace c ++ t0 -> ends_verified updates c1 c' ->
  ends_verified updates c c'.
Proof.
  intros H0 (t & newData & Ht & Hi & Hc & He).
  exists (t0 ++ t), newData. rewrite Ht, H0, <- !app_assoc. now repeat split.
Qed.

Lemma ends_verified_quiet updates c c1 c2 :
  ends_verified updates c c1 ->
  trace c2 = trace c1 -> cell_channelData c2 = cell_channelData c1 ->
  cell_error c2 = cell_error c1 ->
  ends_verified updates c c2.
Proof.
  intros (t & newData & Ht & Hi & Hc & He) H1 H2 H3.
  exists t, newData. rewrite H1, H2, H3. now repeat split.
Qed.

Lemma verify_loop_step r updates n c :
  verify_loop r updates (S n) c
  = match fst (fetchChannelData r c) with
    | Return newData =>
        if strict_eq (index newData (first (keys updates)))
             (index updates (first (keys updates)))
        then (Return true, snd (fetchChannelData r c))
        else verify_loop r updates n (paused 2000 (snd (fetchChannelData r c)))
    | Throw e => (Throw e, snd (fetchChannelData r c))
    end.
Proof.
  rewrite verify_loop_S. unfold bind at 1. rewrite verifyUpdate_eq.
  destruct (fst (fetchChannelData r c)) as [newData|e]; [|reflexivity].
  now destruct (strict_eq _ _).
Qed.

Lemma verify_loop_end r updates n :
  forall c,
    (cell_loading c = false ->
     cell_loading (snd (verify_loop r updates n c)) = false) /\
    (fst (verify_loop r updates n c) = Return true ->
     ends_verified updates c (snd (verify_loop r updates n c))).
Proof.
  induction n as [|n IH]; intros c; [split; [auto|discriminate]|].
  rewrite verify_loop_step.
  destruct (fetchChannelData_cells r c) as (Hl & _ & He).
  pose proof (fetchChannelData_result r c) as Hr.
  pose proof (fetchChannelData_snapshot r c) as Hs.
  destruct (fetchChannelData_steps r c) as (Ht & _).
  destruct (fetchChannelData r c) as [res c1]; simpl in Hl, He, Hr, Hs, Ht.
  subst res. destruct (next_get c) as [| |newData]; simpl;
    try (split; [auto|discriminate]).
  destruct (strict_eq _ _) eqn:Heq; simpl.
  - split; [auto|]. intros _. exists [], newData. simpl.
    apply JsFacts.strict_eq_true in Heq. now repeat split.
  - destruct (IH (paused 2000 c1)) as [IHl IHv]. split.
    + intros _. now apply IHl.
    + intros Hv.
      apply (ends_verified_after _ _ (paused 2000 c1) _
               [Get (GetJson newData); Sleep 2000]);
        [|now apply IHv].
      simpl. rewrite Ht, <- app_assoc. reflexivity.
Qed.

Lemma attempt_end r updates c :
  cell_loading (snd (attempt r updates c)) = false /\
  (fst (attempt r updates c) = Return true ->
   ends_verified updates c (snd (attempt r updates c))).
Proof.
  rewrite attempt_eq.
  destruct (fetchChannelData_cells r (at_read c)) as (Hl & _ & _).
  destruct (fetchChannelData_steps r (at_read c)) as (Ht & _).
  change (trace (at_read c)) with (trace c) in Ht.
  destruct (fetchChannelData r (at_read c)) as [[currentData|e] c1];
    simpl in Hl, Ht; [|split; [exact Hl|discriminate]].
  cbv zeta. set (q := request r updates currentData c1).
  destruct (verify_loop_end r updates 3 (at_reply q c1)) as [Vl Vv].
  specialize (Vl Hl).
  destruct (next_post c1) as [| |result] eqn:Hp;
    try (split; [exact Hl|discriminate]).
  destruct (Number (str result) <=? 0)%float; [split; [exact Hl|discriminate]|].
  unfold after_verification.
  destruct (verify_loop r updates 3 (at_reply q c1)) as [[[|]|e] c3];
    cbn [fst snd] in *; split; try assumption; try discriminate.
  intros _.
  apply (ends_verified_after _ _ (at_reply q c1) _
           [Get (next_get (at_read c)); Post q (next_post c1)]);
    [|now apply Vv].
  simpl. rewrite Ht, <- app_assoc. reflexivity.
Qed.

Lemma attemptUpdate_end r updates n ms :
  forall m attempts c,
    (Z.to_nat (n - attempts) < m)%nat ->
    cell_loading (snd (attemptUpdate r updates n ms attempts c)) = false /\
    (fst (attemptUpdate r updates n ms attempts c) = Return true ->
     ends_verified updates c (snd (attemptUpdate r updates n ms attempts c))).
Proof.
  induction m as [|m IH]; intros attempts c Hm; [lia|].
  rewrite attemptUpdate_eq.
  destruct (attempt_end r updates c) as [Al Av].
  destruct (attempt_steps r updates c) as (t1 & (Ht1 & _) & _).
  pose proof (attempt_returns_true r updates c) as Htrue.
  destruct (attempt r updates c) as [[b|e] c1]; cbn [fst snd] in *.
  - split; [exact Al|]. intros [= ->].
    apply (ends_verified_quiet _ _ c1); auto.
  - destruct (Z.ltb_spec (attempts + 1) n) as [Hlt|Hge];
      [|split; [exact Al|discriminate]].
    destruct (IH (attempts + 1) (paused ms c1)) as [Il Iv]; [lia|].
    destruct (attemptUpdate r updates n ms (attempts + 1) (paused ms c1))
      as [res c2]; cbn [fst snd] in *.
    split; [exact Il|]. intros Hres.
    apply (ends_verified_quiet _ _ c2); auto.
    apply (ends_verified_after _ _ (paused ms c1) _ (t1 ++ [Sleep ms]));
      [|now apply Iv].
    simpl. rewrite Ht1, <- app_assoc. reflexivity.
Qed.

(** X2: the executor never throws, whatever the channel does: it returns
    [true] or [false]. It ends with the busy and the loading flag down, shows
    the terminal message when it returns [false] and no message when it
    returns [true], and it neither switches the tab nor shows a toast. *)
Theorem updateThingSpeak_always_returns (r : Render) (updates : object)
    (options : RetryOptions) (c : Component) :
  exists b,
    fst (updateThingSpeak r updates options c) = Return b /\
    cell_updating (snd (updateThingSpeak r updates options c)) = false /\
    cell_loading (snd (updateThingSpeak r updates options c)) = false /\
    cell_error (snd (updateThingSpeak r updates options c))
    = (if b then None else Some terminal_message) /\
    cell_activeTab (snd (updateThingSpeak r updates options c)) = cell_activeTab c /\
    toasts (snd (updateThingSpeak r updates options c)) = toasts c.
Proof.
  destruct (updateThingSpeak_spec r updates options c)
    as (b & t & Hb & (_ & Ha & Hs & _) & _ & Hu & He).
  destruct (attemptUpdate_end r updates (default 5 (retries options))
              (default 2000 (delay options)) _ 0 c (Nat.lt_succ_diag_r _))
    as [Hl Hv].
  fold (updateThingSpeak r updates options c) in Hl, Hv.
  exists b. repeat split; try assumption.
  destruct b; [|now apply He].
  destruct (Hv Hb) as (_ & _ & _ & _ & _ & Herr). exact Herr.
Qed.

(** X3: the executor returns [true] only on a matching re-read: the last
    thing it did is a read that brought a snapshot whose value at the first
    key of the update is the value of the update, and that snapshot is the
    stored one. *)
Theorem updateThingSpeak_success_is_verified (r : Render) (updates : object)
    (options : RetryOptions) (c : Component) :
  fst (updateThingSpeak r updates options c) = Return true ->
  exists t newData,
    trace (snd (updateThingSpeak r updates options c))
    = trace c ++ t ++ [Get (GetJson newData)] /\
    index newData (first (keys updates)) = index updates (first (keys updates)) /\
    cell_channelData (snd (updateThingSpeak r updates options c)) = newData.
Proof.
  intros H.
  destruct (attemptUpdate_end r updates (default 5 (retries options))
              (default 2000 (delay options)) _ 0 c (Nat.lt_succ_diag_r _))
    as [_ Hv].
  destruct (Hv H) as (t & newData & Ht & Hi & Hc & _).
  now exists t, newData.
Qed.

(** ** What the executor costs *)

Lemma pause_total_app t1 t2 :
  pause_total (t1 ++ t2) = pause_total t1 + pause_total t2.
Proof.
  induction t1 as [|[reply|q reply|ms] t1 IH]; simpl; lia.
Qed.

Lemma count_cons p e t :
  count p (e :: t) = ((if p e then 1 else 0) + count p t)%nat.
Proof. unfold count. simpl. now destruct (p e). Qed.

Ltac tally :=
  rewrite ?count_app, ?pause_total_app;
  cbn [pause_total count filter List.length is_Get is_Post is_Sleep app].

Ltac sleeps H :=
  let ms := fresh "ms" in
  intros ms H; cbn [In app] in H;
  repeat match type of H with
         | In _ (_ ++ _) => apply in_app_or in H
         | In _ (_ :: _) => cbn [In] in H
         | _ \/ _ => destruct H as [H|H]
         | False => destruct H
         | Get _ = Sleep _ => discriminate H
         | Post _ _ = Sleep _ => discriminate H
         | Sleep _ = Sleep _ => injection H as H
         end.

(** The record of a verification loop of [n] rounds: reads and pauses of
    2000 ms, at most [n] of each. *)
Lemma verify_loop_counts r updates n :
  forall c,
  exists t,
    trace (snd (verify_loop r updates n c)) = trace c ++ t /\
    (count is_Get t <= n)%nat /\
    count is_Post t = 0%nat /\
    (count is_Sleep t <= n)%nat /\
    0 <= pause_total t <= 2000 * Z.of_nat n /\
    (forall ms, In (Sleep ms) t -> ms = 2000).
Proof.
  induction n as [|n IH]; intros c.
  - exists []. split; [now rewrite app_nil_r|]. tally.
    repeat split; try lia. sleeps H.
  - rewrite verify_loop_step.
    destruct (fetchChannelData_steps r c) as (Ht & _).
    destruct (fetchChannelData r c) as [[newData|e] c1]; cbn [fst snd] in Ht |- *.
    + destruct (strict_eq _ _).
      * exists [Get (next_get c)]. split; [exact Ht|]. tally.
        repeat split; try lia. sleeps H.
      * destruct (IH (paused 2000 c1)) as (t & Ht' & Hg & Hp & Hs & Hz & Hm).
        exists ([Get (next_get c); Sleep 2000] ++ t). split.
        -- rewrite Ht'. cbn [paused sleep record update snd trace].
           rewrite Ht, <- !app_assoc. reflexivity.
        -- tally. repeat split; try lia. sleeps H; [now symmetry|now apply Hm].
    + exists [Get (next_get c)]. split; [exact Ht|]. tally.
      repeat split; try lia. sleeps H.
Qed.

(** The record of one attempt: one to four reads, at most one write, at most
    three pauses of 2000 ms. *)
Lemma attempt_counts r updates c :
  exists t,
    trace (snd (attempt r updates c)) = trace c ++ t /\
    (1 <= count is_Get t <= 4)%nat /\
    (count is_Post t <= 1)%nat /\
    (count is_Sleep t <= 3)%nat /\
    0 <= pause_total t <= 6000 /\
    (forall ms, In (Sleep ms) t -> ms = 2000).
Proof.
  rewrite attempt_eq.
  destruct (fetchChannelData_steps r (at_read c)) as (Ht & _).
  change (trace (at_read c)) with (trace c) in Ht.
  destruct (fetchChannelData r (at_read c)) as [[currentData|e] c1];
    cbn [fst snd] in Ht; cbv zeta.
  - set (q := request r updates currentData c1).
    assert (Hq : trace (at_reply q c1)
                 = trace c ++ [Get (next_get (at_read c)); Post q (next_post c1)]).
    { cbn [at_reply record update snd trace]. rewrite Ht, <- app_assoc. reflexivity. }
    assert (Hshort :
      exists t,
        trace (at_reply q c1) = trace c ++ t /\
        (1 <= count is_Get t <= 4)%nat /\ (count is_Post t <= 1)%nat /\
        (count is_Sleep t <= 3)%nat /\ 0 <= pause_total t <= 6000 /\
        (forall ms, In (Sleep ms) t -> ms = 2000)).
    { exists [Get (next_get (at_read c)); Post q (next_post c1)].
      split; [exact Hq|]. tally. repeat split; try lia. sleeps H. }
    destruct (next_post c1) as [| |result]; try exact Hshort.
    destruct (Number (str result) <=? 0)%float; [exact Hshort|].
    destruct (verify_loop_counts r updates 3 (at_reply q c1))
      as (t & Ht' & Hg & Hp & Hs & Hz & Hm).
    exists ([Get (next_get (at_read c)); Post q (PostText result)] ++ t). split.
    + unfold after_verification.
      destruct (verify_loop r updates 3 (at_reply q c1)) as [[[|]|e] c3];
        cbn [fst snd] in Ht' |- *; rewrite Ht', Hq, <- !app_assoc; reflexivity.
    + tally. repeat split; try lia. sleeps H. now apply Hm.
  - exists [Get (next_get (at_read c))]. split; [exact Ht|]. tally.
    repeat split; try lia. sleeps H.
Qed.

Lemma attemptUpdate_counts r updates n ms :
  forall m attempts c,
    Z.max 1 (n - attempts) <= Z.of_nat (S m) ->
    exists t,
      trace (snd (attemptUpdate r updates n ms attempts c)) = trace c ++ t /\
      (1 <= count is_Get t <= 4 * S m)%nat /\
      (count is_Post t <= S m)%nat /\
      (count is_Sleep t <= 4 * S m - 1)%nat /\
      (0 <= ms -> 0 <= pause_total t <= 6000 * Z.of_nat (S m) + ms * Z.of_nat m) /\
      (forall ms', In (Sleep ms') t -> ms' = 2000 \/ ms' = ms).
Proof.
  assert (Hone : forall m t1,
            (1 <= count is_Get t1 <= 4)%nat -> (count is_Post t1 <= 1)%nat ->
            (count is_Sleep t1 <= 3)%nat -> 0 <= pause_total t1 <= 6000 ->
            (forall ms', In (Sleep ms') t1 -> ms' = 2000) ->
            (1 <= count is_Get t1 <= 4 * S m)%nat /\
            (count is_Post t1 <= S m)%nat /\
            (count is_Sleep t1 <= 4 * S m - 1)%nat /\
            (0 <= ms -> 0 <= pause_total t1
                        <= 6000 * Z.of_nat (S m) + ms * Z.of_nat m) /\
            (forall ms', In (Sleep ms') t1 -> ms' = 2000 \/ ms' = ms)).
  { intros m t1 Hg Hp Hs Hz Hm. repeat split; try lia; try nia.
    intros ms' H. left. now apply Hm. }
  induction m as [|m IH]; intros attempts c Hm; rewrite attemptUpdate_eq;
    destruct (attempt_counts r updates c) as (t1 & Ht1 & Hg1 & Hp1 & Hs1 & Hz1 & Hm1);
    destruct (attempt r updates c) as [[b|e] c1]; cbn [fst snd] in Ht1 |- *.
  - exists t1. split; [exact Ht1|]. now apply Hone.
  - destruct (Z.ltb_spec (attempts + 1) n) as [Hlt|Hge]; [lia|].
    exists t1. split; [exact Ht1|]. now apply Hone.
  - exists t1. split; [exact Ht1|]. now apply Hone.
  - destruct (Z.ltb_spec (attempts + 1) n) as [Hlt|Hge].
    + destruct (IH (attempts + 1) (paused ms c1))
        as (t & Ht & Hg & Hp & Hs & Hz & Hms); [lia|].
      destruct (attemptUpdate r updates n ms (attempts + 1) (paused ms c1))
        as [res c2]; cbn [fst snd] in Ht |- *.
      exists (t1 ++ [Sleep ms] ++ t). split.
      * change (trace (finished c2)) with (trace c2). rewrite Ht.
        cbn [paused sleep record update snd trace].
        rewrite Ht1, <- !app_assoc. reflexivity.
      * tally. repeat split; try lia;
          try (match goal with H0 : 0 <= ms |- _ => specialize (Hz H0); nia end).
        sleeps H; [left; now apply Hm1|right; now symmetry|now apply Hms].
    + exists t1. split; [exact Ht1|]. now apply Hone.
Qed.

(** X4: whatever the channel does, the executor called with the budget
    [retries] makes at most [N = max(1, retries)] writes and between one and
    [4 N] reads, pauses at most [4 N - 1] times, each time for 2000 ms (in
    the verification) or for [delay] (between attempts), and for at most
    [6000 N + delay (N - 1)] ms in all. *)
Theorem updateThingSpeak_bounded (r : Render) (updates : object)
    (options : RetryOptions) (c : Component) :
  exists t,
    trace (snd (updateThingSpeak r updates options c)) = trace c ++ t /\
    (count is_Post t <= Z.to_nat (Z.max 1 (default 5%Z (retries options))))%nat /\
    (1 <= count is_Get t
     <= 4 * Z.to_nat (Z.max 1 (default 5%Z (retries options))))%nat /\
    (count is_Sleep t
     <= 4 * Z.to_nat (Z.max 1 (default 5%Z (retries options))) - 1)%nat /\
    (forall ms, In (Sleep ms) t ->
                ms = 2000 \/ ms = default 2000 (delay options)) /\
    (0 <= default 2000 (delay options) ->
     0 <= pause_total t
     <= 6000 * Z.max 1 (default 5 (retries options))
        + default 2000 (delay options) * (Z.max 1 (default 5 (retries options)) - 1)).
Proof.
  unfold updateThingSpeak.
  set (n := default 5 (retries options)).
  set (ms := default 2000 (delay options)).
  destruct (attemptUpdate_counts r updates n ms (Z.to_nat (Z.max 1 n) - 1) 0 c)
    as (t & Ht & Hg & Hp & Hs & Hz & Hm); [lia|].
  replace (S (Z.to_nat (Z.max 1 n) - 1)) with (Z.to_nat (Z.max 1 n)) in * by lia.
  exists t. repeat split; try lia; try assumption;
    match goal with H0 : 0 <= ms |- _ => specialize (Hz H0); nia end.
Qed.

(** ** A channel that shows the write at once, and one that never does *)

(** X5: when the first read brings a snapshot, the write is not rejected
    and the first re-read shows the update at its first key, the executor
    returns [true] after exactly one read, one write of the merged snapshot
    and one re-read, without a pause, and the stored snapshot is the one of
    the re-read. *)
Theorem updateThingSpeak_settles_at_once (r : Render) (updates : object)
    (options : RetryOptions) (c : Component) (data newData : object)
    (result : string) :
  get_reply world (count is_Get (trace c)) = GetJson data ->
  post_reply world (count is_Post (trace c)) = PostText result ->
  (Number (str result) <=? 0)%float = false ->
  get_reply world (S (count is_Get (trace c))) = GetJson newData ->
  index newData (first (keys updates)) = index updates (first (keys updates)) ->
  fst (updateThingSpeak r updates options c) = Return true /\
  trace (snd (updateThingSpeak r updates options c))
  = trace c ++
    [Get (GetJson data);
     Post (URLSearchParams
             (write_params (writeApiKey r) data updates
                (toISOString world (S (List.length (trace c))))))
          (PostText result);
     Get (GetJson newData)] /\
  cell_channelData (snd (updateThingSpeak r updates options c)) = newData.
Proof.
  intros Hg Hp Hacc Hg' Hi.
  enough (exists c3,
            updateThingSpeak r updates options c = (Return true, c3) /\
            trace c3
            = trace c ++
              [Get (GetJson data);
               Post (URLSearchParams
                       (write_params (writeApiKey r) data updates
                          (toISOString world (S (List.length (trace c))))))
                    (PostText result);
               Get (GetJson newData)] /\
            cell_channelData c3 = newData)
    as (c3 & -> & Ht & Hc) by now repeat split.
  unfold updateThingSpeak. rewrite attemptUpdate_eq, attempt_eq.
  pose proof (fetchChannelData_steps r (at_read c)) as Hs.
  pose proof (fetchChannelData_result r (at_read c)) as Hr.
  apply (steps_trace r) in Hs. change (trace (at_read c)) with (trace c) in Hs.
  unfold next_get in Hr, Hs. change (trace (at_read c)) with (trace c) in Hr, Hs.
  rewrite Hg in Hr, Hs.
  destruct (fetchChannelData r (at_read c)) as [[currentData|e] c1];
    simpl in Hr, Hs; [|discriminate]. injection Hr as ->. cbv zeta.
  assert (Hq : request r updates data c1
               = URLSearchParams
                   (write_params (writeApiKey r) data updates
                      (toISOString world (S (List.length (trace c)))))).
  { unfold request. rewrite Hs, length_app. simpl. now rewrite Nat.add_1_r. }
  rewrite Hq. set (q := URLSearchParams _).
  assert (Hp1 : next_post c1 = PostText result).
  { unfold next_post. rewrite Hs, count_snoc. simpl. now rewrite Nat.add_0_r. }
  assert (Ht2 : trace (at_reply q c1)
                = trace c ++ [Get (GetJson data); Post q (PostText result)]).
  { simpl. rewrite Hp1, Hs, <- app_assoc. reflexivity. }
  rewrite Hp1, Hacc. rewrite verify_loop_step.
  pose proof (fetchChannelData_steps r (at_reply q c1)) as Hs2.
  pose proof (fetchChannelData_result r (at_reply q c1)) as Hr2.
  pose proof (fetchChannelData_snapshot r (at_reply q c1)) as Hc2.
  apply (steps_trace r) in Hs2. unfold next_get in Hr2, Hs2, Hc2.
  rewrite Ht2 in Hr2, Hs2, Hc2.
  replace (count is_Get (trace c ++ [Get (GetJson data); Post q (PostText result)]))
    with (S (count is_Get (trace c))) in Hr2, Hs2, Hc2
    by (rewrite count_app; unfold count at 3; simpl; lia).
  rewrite Hg' in Hr2, Hs2, Hc2.
  destruct (fetchChannelData r (at_reply q c1)) as [res c3];
    simpl in Hr2, Hs2, Hc2.
  subst res. cbn [fst snd]. rewrite Hi.
  replace (strict_eq (index updates (first (keys updates)))
             (index updates (first (keys updates)))) with true
    by (symmetry; now apply JsFacts.strict_eq_true).
  exists (finished c3). split; [reflexivity|]. split; [|exact Hc2].
  change (trace (finished c3)) with (trace c3).
  rewrite Hs2, <- app_assoc. reflexivity.
Qed.

Lemma verify_loop_unconfirmed r updates n :
  (forall k, exists data,
      get_reply world k = GetJson data /\
      index data (first (keys updates)) <> index updates (first (keys updates))) ->
  forall c,
    fst (verify_loop r updates n c) = Return false /\
    exists t,
      trace (snd (verify_loop r updates n c)) = trace c ++ t /\
      count is_Get t = n /\ count is_Post t = 0%nat /\
      count is_Sleep t = n /\ pause_total t = 2000 * Z.of_nat n.
Proof.
  intros Hreads. induction n as [|n IH]; intros c.
  - split; [reflexivity|]. exists []. split; [now rewrite app_nil_r|]. tally.
    repeat split.
  - rewrite verify_loop_step.
    destruct (fetchChannelData_steps r c) as (Ht & _).
    pose proof (fetchChannelData_result r c) as Hr.
    destruct (Hreads (count is_Get (trace c))) as (data & Hd & Hne).
    fold (next_get c) in Hd. rewrite Hd in Hr, Ht.
    destruct (fetchChannelData r c) as [res c1]; cbn [fst snd] in Ht, Hr |- *.
    subst res.
    destruct (strict_eq _ _) eqn:Heq;
      [apply JsFacts.strict_eq_true in Heq; contradiction|].
    destruct (IH (paused 2000 c1)) as (Hf & t & Ht' & Hg & Hp & Hs & Hz).
    split; [exact Hf|].
    exists ([Get (GetJson data); Sleep 2000] ++ t). split.
    + rewrite Ht'. cbn [paused sleep record update snd trace].
      rewrite Ht, <- !app_assoc. reflexivity.
    + tally. repeat split; lia.
Qed.

Lemma attempt_unconfirmed r updates c :
  (forall k, exists data,
      get_reply world k = GetJson data /\
      index data (first (keys updates)) <> index updates (first (keys updates))) ->
  (forall k, exists result,
      post_reply world k = PostText result /\
      (Number (str result) <=? 0)%float = false) ->
  fst (attempt r updates c) = Throw (Error sync_failed) /\
  exists t,
    trace (snd (attempt r updates c)) = trace c ++ t /\
    count is_Get t = 4%nat /\ count is_Post t = 1%nat /\
    count is_Sleep t = 3%nat /\ pause_total t = 6000.
Proof.
  intros Hreads Hposts. rewrite attempt_eq.
  destruct (fetchChannelData_steps r (at_read c)) as (Ht & _).
  pose proof (fetchChannelData_result r (at_read c)) as Hr.
  change (trace (at_read c)) with (trace c) in Ht.
  destruct (Hreads (count is_Get (trace (at_read c)))) as (data & Hd & _).
  fold (next_get (at_read c)) in Hd. rewrite Hd in Hr, Ht.
  destruct (fetchChannelData r (at_read c)) as [res c1];
    cbn [fst snd] in Ht, Hr. subst res. cbv zeta.
  set (q := request r updates data c1).
  destruct (Hposts (count is_Post (trace c1))) as (result & Hp & Hacc).
  fold (next_post c1) in Hp.
  assert (Hq : trace (at_reply q c1)
               = trace c ++ [Get (GetJson data); Post q (PostText result)]).
  { cbn [at_reply record update snd trace]. rewrite Hp, Ht, <- app_assoc.
    reflexivity. }
  rewrite Hp, Hacc.
  destruct (verify_loop_unconfirmed r updates 3 Hreads (at_reply q c1))
    as (Hf & t & Ht' & Hg & Hps & Hs & Hz).
  unfold after_verification.
  destruct (verify_loop r updates 3 (at_reply q c1)) as [res c3];
    cbn [fst snd] in Hf, Ht' |- *. subst res.
  split; [reflexivity|].
  exists ([Get (GetJson data); Post q (PostText result)] ++ t). split.
  - cbn [snd]. rewrite Ht', Hq, <- !app_assoc. reflexivity.
  - tally. repeat split; lia.
Qed.

Lemma attemptUpdate_unconfirmed r updates n ms :
  (forall k, exists data,
      get_reply world k = GetJson data /\
      index data (first (keys updates)) <> index updates (first (keys updates))) ->
  (forall k, exists result,
      post_reply world k = PostText result /\
      (Number (str result) <=? 0)%float = false) ->
  forall m attempts c,
    Z.max 1 (n - attempts) = Z.of_nat (S m) ->
    fst (attemptUpdate r updates n ms attempts c) = Return false /\
    exists t,
      trace (snd (attemptUpdate r updates n ms attempts c)) = trace c ++ t /\
      count is_Get t = (4 * S m)%nat /\ count is_Post t = S m /\
      count is_Sleep t = (4 * S m - 1)%nat /\
      pause_total t = 6000 * Z.of_nat (S m) + ms * Z.of_nat m.
Proof.
  intros Hreads Hposts.
  induction m as [|m IH]; intros attempts c Hm; rewrite attemptUpdate_eq;
    destruct (attempt_unconfirmed r updates c Hreads Hposts)
      as (Hf1 & t1 & Ht1 & Hg1 & Hp1 & Hs1 & Hz1);
    destruct (attempt r updates c) as [res c1]; cbn [fst snd] in Hf1, Ht1;
    subst res.
  - destruct (Z.ltb_spec (attempts + 1) n) as [Hlt|Hge]; [lia|].
    split; [reflexivity|]. exists t1. split; [exact Ht1|]. repeat split; lia.
  - destruct (Z.ltb_spec (attempts + 1) n) as [Hlt|Hge]; [|lia].
    destruct (IH (attempts + 1) (paused ms c1))
      as (Hf & t & Ht & Hg & Hp & Hs & Hz); [lia|].
    destruct (attemptUpdate r updates n ms (attempts + 1) (paused ms c1))
      as [res c2]; cbn [fst snd] in Hf, Ht |- *.
    split; [exact Hf|]. exists (t1 ++ [Sleep ms] ++ t). split.
    + change (trace (finished c2)) with (trace c2). rewrite Ht.
      cbn [paused sleep record update snd trace].
      rewrite Ht1, <- !app_assoc. reflexivity.
    + tally. repeat split; try lia; try nia.
Qed.

(** X6: on a channel that takes every write and never shows it at the first
    key of the update, the executor with a budget [retries >= 1] returns
    [false] after writing [retries] times: every attempt reads, writes again
    and re-reads three times, so it makes [4 retries] reads, and it pauses
    [4 retries - 1] times, for [6000 retries + delay (retries - 1)] ms in
    all. *)
Theorem updateThingSpeak_repeats_unconfirmed_writes (r : Render)
    (updates : object) (options : RetryOptions) (c : Component) :
  (forall k, exists data,
      get_reply world k = GetJson data /\
      index data (first (keys updates)) <> index updates (first (keys updates))) ->
  (forall k, exists result,
      post_reply world k = PostText result /\
      (Number (str result) <=? 0)%float = false) ->
  1 <= default 5 (retries options) ->
  fst (updateThingSpeak r updates options c) = Return false /\
  exists t,
    trace (snd (updateThingSpeak r updates options c)) = trace c ++ t /\
    count is_Post t = Z.to_nat (default 5%Z (retries options)) /\
    count is_Get t = (4 * Z.to_nat (default 5%Z (retries options)))%nat /\
    count is_Sleep t = (4 * Z.to_nat (default 5%Z (retries options)) - 1)%nat /\
    pause_total t
    = 6000 * default 5 (retries options)
      + default 2000 (delay options) * (default 5 (retries options) - 1).
Proof.
  intros Hreads Hposts Hn. unfold updateThingSpeak.
  set (n := default 5 (retries options)) in *.
  set (ms := default 2000 (delay options)).
  destruct (attemptUpdate_unconfirmed r updates n ms Hreads Hposts
              (Z.to_nat n - 1) 0 c)
    as (Hf & t & Ht & Hg & Hp & Hs & Hz); [lia|].
  replace (S (Z.to_nat n - 1)) with (Z.to_nat n) in * by lia.
  split; [exact Hf|]. exists t. repeat split; try assumption.
  rewrite Hz. replace (Z.of_nat (Z.to_nat n)) with n by lia.
  replace (Z.of_nat (Z.to_nat n - 1)) with (n - 1) by lia. reflexivity.
Qed.

(** ** The parameters of a write *)

Lemma existsb_eqb_In k l : existsb (String.eqb k) l = true <-> In k l.
Proof.
  rewrite existsb_exists. split.
  - intros (k' & Hin & Hk). apply String.eqb_eq in Hk. now subst.
  - intros H. exists k. split; [exact H|apply String.eqb_refl].
Qed.

Lemma keys_from_NoDup o :
  forall seen,
    NoDup (keys_from seen o) /\
    forall k, In k (keys_from seen o) -> ~ In k seen.
Proof.
  induction o as [|[k v] o IH]; intros seen; simpl.
  - split; [constructor|intros k []].
  - destruct (existsb (String.eqb k) seen) eqn:Hk; [apply IH|].
    destruct (IH (k :: seen)) as [Hnd Hout]. split.
    + constructor; [|exact Hnd]. intros Hin. apply (Hout k Hin). now left.
    + intros k' [<-|Hin] Hseen.
      * apply existsb_eqb_In in Hseen. congruence.
      * apply (Hout k' Hin). now right.
Qed.

(** [new URLSearchParams(o)] names every key of [o] once. *)
Lemma URLSearchParams_NoDup o : NoDup (map fst (URLSearchParams o)).
Proof.
  unfold URLSearchParams. rewrite map_map. simpl. rewrite map_id.
  apply keys_from_NoDup.
Qed.

(** X7: every write request of the executor comes right after a read that
    brought a snapshot and names each of its parameters once; its
    [created_at] is the time of the clock when the request is made, and its
    [api_key] is the write key of the component unless the update or,
    failing that, the snapshot just read has an [api_key] of its own, which
    then replaces it. *)
Theorem updateThingSpeak_requests_well_formed (r : Render) (updates : object)
    (options : RetryOptions) (c : Component) :
  exists t,
    trace (snd (updateThingSpeak r updates options c)) = trace c ++ t /\
    forall pre q reply post,
      t = pre ++ Post q reply :: post ->
      NoDup (map fst q) /\
      exists pre' currentData,
        pre = pre' ++ [Get (GetJson currentData)] /\
        param "created_at" q
        = Some (toISOString world (List.length (trace c ++ pre))) /\
        param "api_key" q
        = Some (if has "api_key" updates then ToString (get "api_key" updates)
                else if has "api_key" currentData
                     then ToString (get "api_key" currentData)
                     else writeApiKey r).
Proof.
  destruct (updateThingSpeak_spec r updates options c)
    as (b & t & _ & Hs & Hw & _).
  exists t. split; [now apply (steps_trace r)|].
  intros pre q reply post ->.
  destruct (writes_merge_split _ _ _ _ _ _ _ _ Hw)
    as [(_ & d & [=] & _)|(pre' & currentData & -> & ->)].
  split; [apply URLSearchParams_NoDup|].
  exists pre', currentData. split; [reflexivity|].
  rewrite !param_write_params. rewrite (length_app (trace c)).
  split; [reflexivity|].
  change (String.eqb "api_key" "created_at") with false. cbv iota.
  destruct (has "api_key" updates); [reflexivity|].
  destruct (has "api_key" currentData); [reflexivity|].
  now rewrite String.eqb_refl.
Qed.

(** ** The timer, the tab effect and the teardown *)

(** X8: the 30 s timer runs the fetch function of the render in which the
    component mounted, whose tab is "auto": while a mode change is pending,
    a tick that brings a snapshot clears the pending flag exactly when the
    mode of the snapshot is 0, whatever mode was requested. *)
Theorem tick_from_mount_confirms_auto_only (readKey writeKey : string)
    (c : Component) (data : object) :
  modeChangeInProgress c = true ->
  next_get c = GetJson data ->
  modeChangeInProgress (snd (tick (render readKey writeKey mount) c))
  = negb (currentMode data =? 0)%float.
Proof.
  intros Hp Hg. unfold tick, unawaited. cbn [snd].
  destruct (fetchChannelData_steps (render readKey writeKey mount) c)
    as (_ & _ & _ & Hm).
  rewrite Hm, Hp, Hg. simpl. now rewrite orb_false_r.
Qed.

(** X9: the tab effect leaves the state alone when [field7] of the snapshot
    is the one of the render before, so a tab that a toggle chose or
    reverted to stays until the mode field changes, and also when [field7]
    is absent; when [field7] changed to a string, the tab becomes "manual"
    for "1" and "auto" for any other string, also one for which
    [isAutoMode] is false. *)
Theorem effect_tab_follows_changed_mode_field (p r : Render) (c : Component) :
  (get "field7" (channelData p) = get "field7" (channelData r) ->
   effect_tab (Some p) r c = (Return tt, c)) /\
  (get "field7" (channelData r) = undefined ->
   effect_tab (Some p) r c = (Return tt, c) /\
   effect_tab None r c = (Return tt, c)) /\
  (forall s,
     get "field7" (channelData r) = str s ->
     get "field7" (channelData p) <> str s ->
     cell_activeTab (snd (effect_tab (Some p) r c))
     = (if String.eqb s "1" then "manual" else "auto") /\
     cell_activeTab (snd (effect_tab None r c))
     = (if String.eqb s "1" then "manual" else "auto") /\
     (isAutoMode (channelData r) = true ->
      cell_activeTab (snd (effect_tab (Some p) r c)) = "auto") /\
     (s <> "0" -> s <> "1" ->
      cell_activeTab (snd (effect_tab (Some p) r c)) = "auto" /\
      isAutoMode (channelData r) = false)).
Proof.
  split; [|split].
  - intros H. unfold effect_tab. rewrite H.
    now rewrite (proj2 (JsFacts.strict_eq_true _ _) eq_refl).
  - intros H. unfold effect_tab, sync_tab. rewrite H. simpl.
    now destruct (strict_eq _ _).
  - intros s Hs Hp. unfold effect_tab, sync_tab, isAutoMode. rewrite Hs.
    destruct (strict_eq (get "field7" (channelData p)) (str s)) eqn:Heq;
      [apply JsFacts.strict_eq_true in Heq; contradiction|].
    simpl. repeat split.
    + intros H0. apply String.eqb_eq in H0. now subst s.
    + destruct (String.eqb s "1") eqn:H1; [|reflexivity].
      apply String.eqb_eq in H1. contradiction.
    + apply String.eqb_neq. assumption.
Qed.

(** X10: tearing the component down right after it mounted leaves neither
    the 30 s timer nor the confirmation timer running and starts no timer;
    the mount did one read. *)
Theorem unmount_after_mount_leaves_no_timer (r : Render) (id : nat)
    (c : Component) :
  ~ In id (intervals (snd (unmount_effect id (snd (mount_effect r id c))))) /\
  (forall j,
     checkInterval (snd (unmount_effect id (snd (mount_effect r id c)))) = Some j ->
     ~ In j (intervals (snd (unmount_effect id (snd (mount_effect r id c)))))) /\
  (forall i,
     In i (intervals (snd (unmount_effect id (snd (mount_effect r id c))))) ->
     In i (intervals c)) /\
  trace (snd (unmount_effect id (snd (mount_effect r id c))))
  = trace c ++ [Get (next_get c)].
Proof.
  assert (Hsub : forall i, In i (intervals (snd (fetchChannelData r c))) ->
                           In i (intervals c)).
  { intros i. run_fetch. destruct (get_reply world _); simpl; auto.
    destruct (modeChangeInProgress c); simpl; auto.
    destruct (currentMode data =? expectedMode r)%float; simpl; auto.
    destruct (checkInterval c); simpl; auto.
    intros H. now apply filter_In in H. }
  destruct (fetchChannelData_steps r c) as (Ht & _).
  unfold unmount_effect, mount_effect, unawaited, setInterval, clearInterval,
    bind, update, read, ret.
  destruct (fetchChannelData r c) as [res c1]; cbn [fst snd] in Hsub, Ht |- *.
  cbn [checkInterval intervals trace].
  assert (Hid : forall l j, ~ In j (filter (fun i => negb (Nat.eqb i j)) l)).
  { intros l j H. apply filter_In in H as [_ H].
    now rewrite Nat.eqb_refl in H. }
  destruct (checkInterval c1) as [j|] eqn:Hc; cbn [checkInterval intervals trace snd].
  - repeat split.
    + intros H. apply filter_In in H as [H _]. now apply Hid in H.
    + intros j' [= <-]. apply Hid.
    + intros i H. apply filter_In in H as [H _]. apply filter_In in H as [H Hi].
      apply in_app_or in H as [H|[<-|[]]]; [now apply Hsub|].
      now rewrite Nat.eqb_refl in Hi.
    + exact Ht.
  - repeat split.
    + apply Hid.
    + discriminate.
    + intros i H. apply filter_In in H as [H Hi].
      apply in_app_or in H as [H|[<-|[]]]; [now apply Hsub|].
      now rewrite Nat.eqb_refl in Hi.
    + exact Ht.
Qed.

(** ** The two toggles *)

Lemma updateThingSpeak_end r updates options c :
  exists b t,
    fst (updateThingSpeak r updates options c) = Return b /\
    trace (snd (updateThingSpeak r updates options c)) = trace c ++ t /\
    writes_merge r updates (List.length (trace c)) None t /\
    (1 <= count is_Get t)%nat /\
    cell_updating (snd (updateThingSpeak r updates options c)) = false /\
    cell_loading (snd (updateThingSpeak r updates options c)) = false /\
    cell_activeTab (snd (updateThingSpeak r updates options c)) = cell_activeTab c /\
    toasts (snd (updateThingSpeak r updates options c)) = toasts c /\
    (b = false ->
     cell_error (snd (updateThingSpeak r updates options c))
     = Some terminal_message) /\
    (b = true ->
     ends_verified updates c (snd (updateThingSpeak r updates options c))).
Proof.
  destruct (updateThingSpeak_spec r updates options c)
    as (b & t & Hb & (Ht & Ha & Hs & _) & Hw & Hu & He).
  destruct (attemptUpdate_end r updates (default 5 (retries options))
              (default 2000 (delay options)) _ 0 c (Nat.lt_succ_diag_r _))
    as [Hl Hv].
  destruct (attemptUpdate_counts r updates (default 5 (retries options))
              (default 2000 (delay options))
              (Z.to_nat (Z.max 1 (default 5 (retries options))) - 1) 0 c)
    as (t' & Ht' & Hg & _); [lia|].
  fold (updateThingSpeak r updates options c) in Hl, Hv, Ht'.
  assert (t' = t) as -> by (rewrite Ht in Ht'; now apply app_inv_head in Ht').
  exists b, t. repeat split; try assumption; try lia.
  intros ->. now apply Hv.
Qed.

Lemma mode_toString_of_tab value :
  mode_toString (mode_of_tab value)
  = if String.eqb value "auto" then "0" else "1".
Proof. unfold mode_toString, mode_of_tab. now destruct (String.eqb value "auto"). Qed.

(** X11: while the stored snapshot has no [field7], [Number(undefined)] is
    [NaN] and equals no mode: a toggle to either tab contacts the channel
    (at least one read), and ends with the pending flag cleared. *)
Theorem handleModeChange_without_mode_field_always_runs (r : Render)
    (value : string) (c : Component) :
  get "field7" (channelData r) = undefined ->
  exists t,
    trace (snd (handleModeChange r value c)) = trace c ++ t /\
    (1 <= count is_Get t)%nat /\
    modeChangeInProgress (snd (handleModeChange r value c)) = false.
Proof.
  intros H.
  assert (Hne : (Number (get "field7" (channelData r)) =? mode_of_tab value)%float
                = false).
  { rewrite H. unfold mode_of_tab. now destruct (String.eqb value "auto"). }
  rewrite (handleModeChange_eq _ _ _ Hne).
  destruct (updateThingSpeak_end r (mode_update value) elevated (requested value c))
    as (b & t & Hb & Ht & _ & Hg & _).
  destruct (updateThingSpeak r (mode_update value) elevated (requested value c))
    as [res c1]; cbn [fst snd] in Hb, Ht. subst res.
  exists t. destruct b; repeat split; assumption.
Qed.

Lemma handleModeChange_trace r value c :
  (Number (get "field7" (channelData r)) =? mode_of_tab value)%float = false ->
  trace (snd (handleModeChange r value c))
  = trace (snd (updateThingSpeak r (mode_update value) elevated (requested value c))).
Proof.
  intros H. rewrite (handleModeChange_eq _ _ _ H).
  destruct (updateThingSpeak_end r (mode_update value) elevated (requested value c))
    as (b & t & Hb & _).
  destruct (updateThingSpeak r (mode_update value) elevated (requested value c))
    as [res c1]; cbn [fst snd] in Hb. subst res. now destruct b.
Qed.

Lemma handlePumpToggle_trace r c :
  trace (snd (handlePumpToggle r c))
  = trace (snd (updateThingSpeak r (pump_update r) elevated
                  (snd (setUpdating true c)))).
Proof.
  rewrite handlePumpToggle_eq.
  destruct (updateThingSpeak_end r (pump_update r) elevated (snd (setUpdating true c)))
    as (b & t & Hb & _).
  destruct (updateThingSpeak r (pump_update r) elevated (snd (setUpdating true c)))
    as [res c1]; cbn [fst snd] in Hb. subst res. now destruct b.
Qed.

(** The requests of an executor whose update has the one key [key]. *)
Lemma single_key_writes r key v options c0 c t :
  trace c0 = trace c ->
  trace (snd (updateThingSpeak r [(key, str v)] options c0)) = trace c ++ t ->
  key <> "created_at" ->
  forall pre q reply post,
    t = pre ++ Post q reply :: post ->
    exists pre' currentData,
      pre = pre' ++ [Get (GetJson currentData)] /\
      param key q = Some v /\
      forall k, k <> key -> k <> "created_at" -> k <> "api_key" ->
                param k q = param k (URLSearchParams currentData).
Proof.
  intros H0 Ht Hkey pre q reply post ->.
  destruct (updateThingSpeak_end r [(key, str v)] options c0)
    as (b & t' & _ & Ht' & Hw & _).
  rewrite H0 in Ht'. rewrite Ht in Ht'. apply app_inv_head in Ht'. subst t'.
  destruct (writes_merge_split _ _ _ _ _ _ _ _ Hw)
    as [(_ & d & [=] & _)|(pre' & currentData & -> & ->)].
  exists pre', currentData. split; [reflexivity|].
  assert (Hhas : forall k, has k [(key, str v)] = String.eqb k key).
  { intros k. unfold has, defines. simpl. apply orb_false_r. }
  split.
  - rewrite param_write_params, Hhas, String.eqb_refl.
    apply String.eqb_neq in Hkey. rewrite Hkey.
    unfold get, get_from, defines. simpl. now rewrite String.eqb_refl.
  - intros k Hk Hc Ha. rewrite param_write_params, Hhas.
    apply String.eqb_neq in Hk, Hc, Ha. rewrite Hk, Hc, Ha.
    now rewrite JsFacts.param_URLSearchParams.
Qed.

(** X12: every write of a mode toggle comes right after a read that
    brought a snapshot, sets [field7] to "0" for the tab "auto" and to "1"
    for any other, and sends every other field (the pump state [field5]
    among them) as that snapshot has it. *)
Theorem handleModeChange_writes_the_mode_only (r : Render) (value : string)
    (c : Component) :
  exists t,
    trace (snd (handleModeChange r value c)) = trace c ++ t /\
    forall pre q reply post,
      t = pre ++ Post q reply :: post ->
      exists pre' currentData,
        pre = pre' ++ [Get (GetJson currentData)] /\
        param "field7" q = Some (if String.eqb value "auto" then "0" else "1") /\
        forall k, k <> "field7" -> k <> "created_at" -> k <> "api_key" ->
                  param k q = param k (URLSearchParams currentData).
Proof.
  destruct (Number (get "field7" (channelData r)) =? mode_of_tab value)%float
    eqn:H.
  - exists []. split.
    + rewrite app_nil_r.
      unfold handleModeChange. unfold bind at 1. simpl. now rewrite H.
    + intros [|e pre] q reply post; discriminate.
  - destruct (updateThingSpeak_end r (mode_update value) elevated (requested value c))
      as (b & t & _ & Ht & _).
    change (trace (requested value c)) with (trace c) in Ht.
    exists t. split; [now rewrite handleModeChange_trace|].
    rewrite <- mode_toString_of_tab.
    apply (single_key_writes r "field7" _ elevated (requested value c) c);
      [reflexivity|exact Ht|discriminate].
Qed.

(** X13: every write of a pump toggle comes right after a read that brought
    a snapshot, sets [field5] to "0" when the snapshot of the render has
    [field5 === "1"] and to "1" otherwise (also when it has no [field5]),
    and sends every other field (the mode [field7] among them) as the
    snapshot just read has it. *)
Theorem handlePumpToggle_writes_the_pump_only (r : Render) (c : Component) :
  exists t,
    trace (snd (handlePumpToggle r c)) = trace c ++ t /\
    forall pre q reply post,
      t = pre ++ Post q reply :: post ->
      exists pre' currentData,
        pre = pre' ++ [Get (GetJson currentData)] /\
        param "field5" q = Some (if pumpState (channelData r) then "0" else "1") /\
        forall k, k <> "field5" -> k <> "created_at" -> k <> "api_key" ->
                  param k q = param k (URLSearchParams currentData).
Proof.
  destruct (updateThingSpeak_end r (pump_update r) elevated (snd (setUpdating true c)))
    as (b & t & _ & Ht & _).
  change (trace (snd (setUpdating true c))) with (trace c) in Ht.
  exists t. split; [now rewrite handlePumpToggle_trace|].
  apply (single_key_writes r "field5" _ elevated (snd (setUpdating true c)) c);
    [reflexivity|exact Ht|discriminate].
Qed.

(** ** How the two toggles end *)

Lemma single_index key v :
  first (keys [(key, v)]) = str key /\ index [(key, v)] (str key) = v.
Proof.
  split; [reflexivity|].
  unfold index, get, get_from, defines. cbn [ToPropertyKey fold_left fst snd].
  now rewrite String.eqb_refl.
Qed.

Lemma verified_single key v newData :
  index newData (first (keys [(key, v)])) = index [(key, v)] (first (keys [(key, v)])) ->
  get key newData = v.
Proof.
  destruct (single_index key v) as [-> ->]. trivial.
Qed.

(** X14: the pump toggle never throws and ends with the busy and the
    loading flag down. It shows its toast exactly when the executor
    succeeded, and then the stored snapshot shows the pump in the state
    opposite to the one of the render; when the executor failed it shows the
    terminal message instead. *)
Theorem handlePumpToggle_outcome (r : Render) (c : Component) :
  exists success,
    fst (updateThingSpeak r (pump_update r) elevated (snd (setUpdating true c)))
    = Return success /\
    fst (handlePumpToggle r c) = Return tt /\
    cell_updating (snd (handlePumpToggle r c)) = false /\
    cell_loading (snd (handlePumpToggle r c)) = false /\
    toasts (snd (handlePumpToggle r c))
    = toasts c ++
      (if success
       then [("Succès",
              ("La pompe a été "
               ++ (if pumpState (channelData r) then "désactivée" else "activée")
               ++ " manuellement")%string)]
       else []) /\
    (success = true ->
     pumpState (cell_channelData (snd (handlePumpToggle r c)))
     = negb (pumpState (channelData r)) /\
     cell_error (snd (handlePumpToggle r c)) = None) /\
    (success = false ->
     cell_error (snd (handlePumpToggle r c)) = Some terminal_message).
Proof.
  rewrite handlePumpToggle_eq.
  destruct (updateThingSpeak_end r (pump_update r) elevated (snd (setUpdating true c)))
    as (b & t & Hb & _ & _ & _ & _ & Hl & _ & Hs & He & Hv).
  change (toasts (snd (setUpdating true c))) with (toasts c) in Hs.
  destruct (updateThingSpeak r (pump_update r) elevated (snd (setUpdating true c)))
    as [res c1]; cbn [fst snd] in *. subst res.
  exists b. split; [reflexivity|]. destruct b.
  - destruct (Hv eq_refl) as (t' & newData & _ & Hi & Hc & Herr).
    simpl. rewrite Hs. repeat split; try assumption; try discriminate.
    + unfold pump_update, pumpState.
      now destruct (strict_eq (get "field5" (channelData r)) (str "1")).
    + rewrite Hc. apply verified_single in Hi.
      unfold pumpState at 1. rewrite Hi. unfold pumpState.
      now destruct (strict_eq (get "field5" (channelData r)) (str "1")).
  - simpl. rewrite Hs, app_nil_r. repeat split; try assumption; try discriminate.
Qed.

(** X15: a mode toggle that has something to write never throws and ends
    with the busy and the loading flag down, so with the tabs and the
    refresh button enabled. It shows its toast exactly when the executor
    succeeded, and then the stored snapshot is in the automatic mode exactly
    when the tab "auto" was requested, and so is the pump switch disabled;
    when the executor failed it shows the terminal message instead. *)
Theorem handleModeChange_outcome (r : Render) (value : string) (c : Component) :
  (Number (get "field7" (channelData r)) =? mode_of_tab value)%float = false ->
  exists success,
    fst (updateThingSpeak r (mode_update value) elevated (requested value c))
    = Return success /\
    fst (handleModeChange r value c) = Return tt /\
    tabs_disabled (snd (handleModeChange r value c)) = false /\
    refresh_disabled (snd (handleModeChange r value c)) = false /\
    toasts (snd (handleModeChange r value c))
    = toasts c ++
      (if success
       then [("Succès",
              ("Mode " ++ (if String.eqb value "auto" then "automatique" else "manuel")
               ++ " adopté")%string)]
       else []) /\
    (success = true ->
     isAutoMode (cell_channelData (snd (handleModeChange r value c)))
     = String.eqb value "auto" /\
     switch_disabled (snd (handleModeChange r value c)) = String.eqb value "auto" /\
     cell_error (snd (handleModeChange r value c)) = None) /\
    (success = false ->
     cell_error (snd (handleModeChange r value c)) = Some terminal_message).
Proof.
  intros H. rewrite (handleModeChange_eq _ _ _ H).
  destruct (updateThingSpeak_end r (mode_update value) elevated (requested value c))
    as (b & t & Hb & _ & _ & _ & _ & Hl & _ & Hs & He & Hv).
  change (toasts (requested value c)) with (toasts c) in Hs.
  destruct (updateThingSpeak r (mode_update value) elevated (requested value c))
    as [res c1]; cbn [fst snd] in *. subst res.
  exists b. split; [reflexivity|].
  unfold tabs_disabled, refresh_disabled, switch_disabled. destruct b.
  - destruct (Hv eq_refl) as (t' & newData & _ & Hi & Hc & Herr).
    simpl. rewrite Hs, Hl.
    assert (Hauto : isAutoMode (cell_channelData c1) = String.eqb value "auto").
    { rewrite Hc. apply verified_single in Hi.
      unfold isAutoMode. rewrite Hi, mode_toString_of_tab.
      now destruct (String.eqb value "auto"). }
    rewrite Hauto. repeat split; try assumption; try discriminate.
    now rewrite orb_false_r.
  - simpl. rewrite Hs, Hl, app_nil_r.
    repeat split; try assumption; try discriminate.
Qed.

(** X16: with a conversion that takes "0" to 0 and "1" to 1, as
    JavaScript's does, a mode toggle that succeeded leaves a snapshot in the
    requested mode: the same toggle made again in the render that follows
    sends nothing. *)
Theorem handleModeChange_again_sends_nothing (r : Render) (value : string)
    (c : Component) (readKey writeKey : string) :
  StringToNumber "0" = 0%float ->
  StringToNumber "1" = 1%float ->
  (Number (get "field7" (channelData r)) =? mode_of_tab value)%float = false ->
  fst (updateThingSpeak r (mode_update value) elevated (requested value c))
  = Return true ->
  trace (snd (handleModeChange
                (render readKey writeKey (snd (handleModeChange r value c)))
                value (snd (handleModeChange r value c))))
  = trace (snd (handleModeChange r value c)).
Proof.
  intros H0 H1 H Hok.
  assert (Hmode : (Number (get "field7"
                             (cell_channelData (snd (handleModeChange r value c))))
                   =? mode_of_tab value)%float = true).
  { rewrite (handleModeChange_eq _ _ _ H).
    destruct (updateThingSpeak_end r (mode_update value) elevated (requested value c))
      as (b & t & Hb & _ & _ & _ & _ & _ & _ & _ & _ & Hv).
    destruct (updateThingSpeak r (mode_update value) elevated (requested value c))
      as [res c1]; cbn [fst snd] in *. rewrite Hb in Hok. injection Hok as ->.
    rewrite Hb.
    destruct (Hv eq_refl) as (t' & newData & _ & Hi & Hc & _).
    simpl. rewrite Hc. apply verified_single in Hi.
    rewrite Hi, mode_toString_of_tab. unfold mode_of_tab, Number.
    destruct (String.eqb value "auto"); [now rewrite H0|now rewrite H1]. }
  set (c' := snd (handleModeChange r value c)) in *.
  unfold handleModeChange at 1. unfold bind at 1. simpl.
  unfold render. simpl. now rewrite Hmode.
Qed.

(** ** The verification loop *)

Lemma verify_loop_succeeds_iff r updates n :
  forall c,
    fst (verify_loop r updates n c) = Return true <->
    exists i,
      (i < n)%nat /\
      shows updates (get_reply world (count is_Get (trace c) + i)) = true /\
      forall j, (j < i)%nat ->
        brings_snapshot (get_reply world (count is_Get (trace c) + j)) = true /\
        shows updates (get_reply world (count is_Get (trace c) + j)) = false.
Proof.
  induction n as [|n IH]; intros c.
  - split; [discriminate|]. intros (i & Hi & _). lia.
  - rewrite verify_loop_step.
    pose proof (fetchChannelData_result r c) as Hr.
    specialize (IH (paused 2000 (snd (fetchChannelData r c)))).
    assert (Hk : count is_Get (trace (paused 2000 (snd (fetchChannelData r c))))
                 = S (count is_Get (trace c))).
    { destruct (fetchChannelData_steps r c) as (Ht & _).
      unfold paused, sleep, record, update. cbn [snd trace].
      rewrite Ht, !count_snoc. simpl. lia. }
    rewrite Hk in IH. rewrite Hr. unfold next_get.
    destruct (get_reply world (count is_Get (trace c))) as [| |newData] eqn:Hg.
    1, 2: split; [discriminate|];
          intros ([|i] & _ & Hshow & Hbefore);
          [rewrite Nat.add_0_r, Hg in Hshow; discriminate
          |destruct (Hbefore 0%nat) as [Hb _]; [lia|];
           rewrite Nat.add_0_r, Hg in Hb; discriminate].
    destruct (strict_eq _ _) eqn:Heq.
    + split; [intros _|reflexivity]. exists 0%nat.
      rewrite Nat.add_0_r, Hg. simpl. repeat split; try lia. exact Heq.
    + rewrite IH. split.
      * intros (i & Hi & Hshow & Hbefore). exists (S i).
        rewrite <- Nat.add_succ_comm. split; [lia|]. split; [exact Hshow|].
        intros [|j] Hj.
        -- rewrite Nat.add_0_r, Hg. simpl. now split.
        -- rewrite <- Nat.add_succ_comm. apply Hbefore. lia.
      * intros ([|i] & Hi & Hshow & Hbefore).
        -- rewrite Nat.add_0_r, Hg in Hshow. simpl in Hshow. congruence.
        -- exists i. rewrite <- Nat.add_succ_comm in Hshow.
           split; [lia|]. split; [exact Hshow|].
           intros j Hj. rewrite Nat.add_succ_comm. apply Hbefore. lia.
Qed.

(** X17: the verification loop succeeds exactly when one of its three
    re-reads shows the update at its first key and every re-read before it
    brought a snapshot that did not: it stops at the first match, and a
    re-read that fails ends it, whatever a later one would have shown. It
    never returns [true] otherwise, and makes no write. *)
Theorem verify_loop_stops_at_first_match (r : Render) (updates : object)
    (c : Component) :
  (fst (verify_loop r updates 3 c) = Return true <->
   exists i,
     (i < 3)%nat /\
     shows updates (get_reply world (count is_Get (trace c) + i)) = true /\
     forall j, (j < i)%nat ->
       brings_snapshot (get_reply world (count is_Get (trace c) + j)) = true /\
       shows updates (get_reply world (count is_Get (trace c) + j)) = false) /\
  exists t,
    trace (snd (verify_loop r updates 3 c)) = trace c ++ t /\
    count is_Post t = 0%nat /\
    (count is_Get t <= 3)%nat.
Proof.
  split; [apply verify_loop_succeeds_iff|].
  destruct (verify_loop_counts r updates 3 c) as (t & Ht & Hg & Hp & _).
  now exists t.
Qed.

(** ** Verification looks at the first key only *)

Lemma shows_first_key k v rest reply :
  shows ((k, v) :: rest) reply = true <->
  exists newData,
    reply = GetJson newData /\ get k newData = get k ((k, v) :: rest).
Proof.
  unfold shows. rewrite JsFacts.first_keys. unfold index. cbn [ToPropertyKey].
  destruct reply as [| |newData].
  1, 2: split; [discriminate|intros (d & [=] & _)].
  rewrite JsFacts.strict_eq_true. split.
  - intros H. now exists newData.
  - now intros (d & [= <-] & H).
Qed.

Lemma misses_first_key k v rest reply :
  brings_snapshot reply = true /\ shows ((k, v) :: rest) reply = false <->
  exists newData,
    reply = GetJson newData /\ get k newData <> get k ((k, v) :: rest).
Proof.
  destruct reply as [| |newData]; cbn [brings_snapshot].
  1, 2: split; [intros [[=] _]|intros (d & [=] & _)].
  split.
  - intros [_ H]. exists newData. split; [reflexivity|]. intros Heq.
    assert (Hs : shows ((k, v) :: rest) (GetJson newData) = true)
      by (apply shows_first_key; now exists newData).
    congruence.
  - intros (d & [= <-] & H). split; [reflexivity|].
    apply not_true_is_false. intros Hs.
    apply shows_first_key in Hs as (d & [= <-] & Hd). contradiction.
Qed.

Lemma verify_loop_first_key r k v rest n c :
  fst (verify_loop r ((k, v) :: rest) n c) = Return true <->
  exists i,
    (i < n)%nat /\
    (exists newData,
        get_reply world (count is_Get (trace c) + i) = GetJson newData /\
        get k newData = get k ((k, v) :: rest)) /\
    forall j, (j < i)%nat ->
      exists newData,
        get_reply world (count is_Get (trace c) + j) = GetJson newData /\
        get k newData <> get k ((k, v) :: rest).
Proof.
  rewrite verify_loop_succeeds_iff. split; intros (i & Hi & Hs & Hb); exists i.
  - split; [exact Hi|]. split; [now apply shows_first_key|].
    intros j Hj. apply misses_first_key. now apply Hb.
  - split; [exact Hi|]. split; [now apply shows_first_key|].
    intros j Hj. apply misses_first_key. now apply Hb.
Qed.

Lemma verify_loop_same_first_key r updates updates' n :
  first (keys updates') = first (keys updates) ->
  index updates' (first (keys updates)) = index updates (first (keys updates)) ->
  forall c, verify_loop r updates' n c = verify_loop r updates n c.
Proof.
  intros Hk Hv. induction n as [|n IH]; intros c; [reflexivity|].
  rewrite !verify_loop_step, Hk, Hv.
  destruct (fst (fetchChannelData r c)); [|reflexivity].
  destruct (strict_eq _ _); [reflexivity|apply IH].
Qed.

Lemma attempt_first_key r k v rest c :
  fst (attempt r ((k, v) :: rest) c) = Return true <->
  exists data result,
    get_reply world (count is_Get (trace c)) = GetJson data /\
    post_reply world (count is_Post (trace c)) = PostText result /\
    (Number (str result) <=? 0)%float = false /\
    exists i,
      (i < 3)%nat /\
      (exists newData,
          get_reply world (S (count is_Get (trace c)) + i) = GetJson newData /\
          get k newData = get k ((k, v) :: rest)) /\
      forall j, (j < i)%nat ->
        exists newData,
          get_reply world (S (count is_Get (trace c)) + j) = GetJson newData /\
          get k newData <> get k ((k, v) :: rest).
Proof.
  rewrite attempt_eq.
  destruct (fetchChannelData_steps r (at_read c)) as (Ht & _).
  pose proof (fetchChannelData_result r (at_read c)) as Hr.
  change (trace (at_read c)) with (trace c) in Ht.
  unfold next_get in Hr, Ht. change (trace (at_read c)) with (trace c) in Hr, Ht.
  destruct (fetchChannelData r (at_read c)) as [res c1];
    cbn [fst snd] in Ht, Hr. subst res.
  destruct (get_reply world (count is_Get (trace c))) as [| |data] eqn:Hg.
  1, 2: split; [discriminate|intros (d & res & [=] & _)].
  cbv zeta. set (q := request r ((k, v) :: rest) data c1).
  assert (Hp : next_post c1 = post_reply world (count is_Post (trace c))).
  { unfold next_post. rewrite Ht, count_snoc. simpl. now rewrite Nat.add_0_r. }
  assert (Hc : count is_Get (trace (at_reply q c1)) = S (count is_Get (trace c))).
  { cbn [at_reply record update snd trace]. rewrite Ht, !count_snoc. simpl. lia. }
  pose proof (verify_loop_first_key r k v rest 3 (at_reply q c1)) as Hv.
  rewrite Hc in Hv. rewrite Hp.
  destruct (post_reply world (count is_Post (trace c))) as [| |result] eqn:Hpost.
  1, 2: split; [discriminate|intros (d & res & _ & [=] & _)].
  destruct (Number (str result) <=? 0)%float eqn:Hle.
  - split; [discriminate|].
    intros (d & res & _ & [= <-] & Hacc & _). congruence.
  - unfold after_verification.
    destruct (verify_loop r ((k, v) :: rest) 3 (at_reply q c1)) as [[[|]|e] c3];
      cbn [fst snd] in Hv |- *.
    + split; [intros _|reflexivity]. exists data, result.
      repeat split; try reflexivity; try assumption. now apply Hv.
    + split; [discriminate|].
      intros (d & res & _ & _ & _ & Hex). apply Hv in Hex. discriminate.
    + split; [discriminate|].
      intros (d & res & _ & _ & _ & Hex). apply Hv in Hex. discriminate.
Qed.

(** C1: the update [{k: v, ...rest}] is verified on its first key [k],
    [Object.keys(updates)[0]], and on no other.
    - One re-read, [verifyUpdate], succeeds if and only if it brings a
      snapshot whose value at [k] is the value of the update at [k].
    - The verification of an attempt, the loop of three re-reads, succeeds
      if and only if one of the three shows that value at [k] and every
      re-read before it brought a snapshot that did not; so an attempt
      returns [true] exactly when its read brought a snapshot, its write was
      not rejected and the loop succeeded, and the executor returns [true]
      only after a re-read that shows the value at [k].
    - Another update with the same first key and the same value for it is
      verified alike, whatever its other keys and values, by the re-read and
      by the loop, and an attempt with it succeeds on the same replies.
    - For the empty update the key is [undefined]: the re-read succeeds if
      and only if the snapshot has no value under "undefined". *)
Theorem verification_compares_first_key_only (r : Render) (k : string)
    (v : value) (rest : object) (options : RetryOptions) (c : Component) :
  first (keys ((k, v) :: rest)) = str k /\
  (has k rest = false -> get k ((k, v) :: rest) = v) /\
  (fst (verifyUpdate r ((k, v) :: rest) c) = Return true <->
   exists newData,
     next_get c = GetJson newData /\
     get k newData = get k ((k, v) :: rest)) /\
  (fst (verify_loop r ((k, v) :: rest) 3 c) = Return true <->
   exists i,
     (i < 3)%nat /\
     (exists newData,
         get_reply world (count is_Get (trace c) + i) = GetJson newData /\
         get k newData = get k ((k, v) :: rest)) /\
     forall j, (j < i)%nat ->
       exists newData,
         get_reply world (count is_Get (trace c) + j) = GetJson newData /\
         get k newData <> get k ((k, v) :: rest)) /\
  (fst (attempt r ((k, v) :: rest) c) = Return true <->
   exists data result,
     get_reply world (count is_Get (trace c)) = GetJson data /\
     post_reply world (count is_Post (trace c)) = PostText result /\
     (Number (str result) <=? 0)%float = false /\
     exists i,
       (i < 3)%nat /\
       (exists newData,
           get_reply world (S (count is_Get (trace c)) + i) = GetJson newData /\
           get k newData = get k ((k, v) :: rest)) /\
       forall j, (j < i)%nat ->
         exists newData,
           get_reply world (S (count is_Get (trace c)) + j) = GetJson newData /\
           get k newData <> get k ((k, v) :: rest)) /\
  (fst (updateThingSpeak r ((k, v) :: rest) options c) = Return true ->
   exists t newData,
     trace (snd (updateThingSpeak r ((k, v) :: rest) options c))
     = trace c ++ t ++ [Get (GetJson newData)] /\
     get k newData = get k ((k, v) :: rest)) /\
  (forall v' rest',
     get k ((k, v') :: rest') = get k ((k, v) :: rest) ->
     verifyUpdate r ((k, v') :: rest') c = verifyUpdate r ((k, v) :: rest) c /\
     verify_loop r ((k, v') :: rest') 3 c = verify_loop r ((k, v) :: rest) 3 c /\
     (fst (attempt r ((k, v') :: rest') c) = Return true <->
      fst (attempt r ((k, v) :: rest) c) = Return true)) /\
  (fst (verifyUpdate r [] c) = Return true <->
   exists newData,
     next_get c = GetJson newData /\ get "undefined" newData = undefined).
Proof.
  split; [reflexivity|]. split.
  { intros H. unfold get. change ((k, v) :: rest) with ([(k, v)] ++ rest).
    rewrite JsFacts.get_from_app, JsFacts.get_from_has, H.
    unfold get_from, defines. simpl. now rewrite String.eqb_refl. }
  assert (Hone : forall updates,
            fst (verifyUpdate r updates c) = Return true <->
            shows updates (next_get c) = true).
  { intros updates. rewrite verifyUpdate_eq, fetchChannelData_result.
    cbn [fst]. unfold shows.
    destruct (next_get c) as [| |newData]; try (split; discriminate).
    split; [now intros [= ->]|now intros ->]. }
  split; [rewrite Hone; apply shows_first_key|].
  split; [apply verify_loop_first_key|].
  split; [apply attempt_first_key|].
  split.
  { intros H.
    destruct (attemptUpdate_end r ((k, v) :: rest) (default 5 (retries options))
                (default 2000 (delay options)) _ 0 c (Nat.lt_succ_diag_r _))
      as [_ Hv].
    destruct (Hv H) as (t & newData & Ht & Hi & _).
    exists t, newData. split; [exact Ht|]. exact Hi. }
  split.
  { intros v' rest' Hsame.
    assert (Hi : index ((k, v') :: rest') (first (keys ((k, v) :: rest)))
                 = index ((k, v) :: rest) (first (keys ((k, v) :: rest))))
      by exact Hsame.
    split; [|split].
    - rewrite !verifyUpdate_eq.
      change (first (keys ((k, v') :: rest'))) with (first (keys ((k, v) :: rest))).
      now rewrite Hi.
    - now apply verify_loop_same_first_key.
    - rewrite !attempt_first_key, Hsame. reflexivity. }
  rewrite Hone. unfold shows.
  destruct (next_get c) as [| |newData].
  1, 2: split; [discriminate|intros (d & [=] & _)].
  change (index newData (first (keys []))) with (get "undefined" newData).
  change (index [] (first (keys []))) with undefined.
  rewrite JsFacts.strict_eq_true. split.
  - intros H. now exists newData.
  - now intros (d & [= <-] & H).
Qed.

End MoreProperties.

(** ** Instances *)

Lemma updateThingSpeak_success_is_verified_witness :
  fst (updateThingSpeak (E := with_world prompt) showing_auto
         (mode_update "manual") elevated loaded) = Return true /\
  cell_channelData
    (snd (updateThingSpeak (E := with_world prompt) showing_auto
            (mode_update "manual") elevated loaded)) = snapshot_manual.
Proof.
  assert (Hf : fst (updateThingSpeak (E := with_world prompt) showing_auto
                      (mode_update "manual") elevated loaded) = Return true)
    by (vm_compute; reflexivity).
  split; [exact Hf|].
  destruct (updateThingSpeak_success_is_verified (E := with_world prompt)
              showing_auto (mode_update "manual") elevated loaded Hf)
    as (t & newData & _ & _ & _).
  vm_compute. reflexivity.
Defined.

Lemma updateThingSpeak_settles_at_once_witness :
  index snapshot_manual (first (keys (mode_update "manual")))
  = index (mode_update "manual") (first (keys (mode_update "manual"))) /\
  fst (updateThingSpeak (E := with_world prompt) showing_auto
         (mode_update "manual") elevated loaded) = Return true /\
  count is_Sleep
    (trace (snd (updateThingSpeak (E := with_world prompt) showing_auto
                   (mode_update "manual") elevated loaded))) = 0%nat.
Proof.
  split; [reflexivity|].
  destruct (updateThingSpeak_settles_at_once (E := with_world prompt)
              showing_auto (mode_update "manual") elevated loaded
              snapshot_auto snapshot_manual "13"
              eq_refl eq_refl eq_refl eq_refl eq_refl) as (Hf & Ht & _).
  split; [exact Hf|]. rewrite Ht. reflexivity.
Defined.

Lemma updateThingSpeak_repeats_unconfirmed_writes_witness :
  fst (updateThingSpeak (E := with_world deaf) showing_auto
         (mode_update "manual") {| retries := None; delay := None |} loaded)
  = Return false /\
  exists t,
    trace (snd (updateThingSpeak (E := with_world deaf) showing_auto
                  (mode_update "manual") {| retries := None; delay := None |}
                  loaded)) = t /\
    count is_Post t = 5%nat /\ count is_Get t = 20%nat /\ pause_total t = 38000.
Proof.
  destruct (updateThingSpeak_repeats_unconfirmed_writes (E := with_world deaf)
              showing_auto (mode_update "manual")
              {| retries := None; delay := None |} loaded)
    as (Hf & t & Ht & Hp & Hg & _ & Hz).
  - intros k. exists snapshot_auto. split; [reflexivity|discriminate].
  - intros k. exists "13". split; reflexivity.
  - simpl. lia.
  - split; [exact Hf|]. exists t. repeat split; assumption.
Defined.

Lemma tick_from_mount_confirms_auto_only_witness :
  (currentMode (E := with_world switched) snapshot_manual =? 0)%float = false /\
  modeChangeInProgress
    (snd (tick (E := with_world switched) (render "READ" "WRITE" mount) pending))
  = true.
Proof.
  split; [reflexivity|].
  rewrite (tick_from_mount_confirms_auto_only (E := with_world switched)
             "READ" "WRITE" pending snapshot_manual eq_refl eq_refl).
  reflexivity.
Defined.

Lemma handleModeChange_without_mode_field_always_runs_witness :
  get "field7" (channelData showing_bare) = undefined /\
  modeChangeInProgress
    (snd (handleModeChange (E := with_world unreachable) showing_bare "auto" loaded))
  = false /\
  (1 <= count is_Get
          (trace (snd (handleModeChange (E := with_world unreachable)
                         showing_bare "auto" loaded))))%nat.
Proof.
  split; [reflexivity|].
  destruct (handleModeChange_without_mode_field_always_runs
              (E := with_world unreachable) showing_bare "auto" loaded eq_refl)
    as (t & Ht & Hg & Hm).
  split; [exact Hm|]. rewrite Ht. exact Hg.
Defined.

Lemma handleModeChange_outcome_witness :
  switch_disabled
    (snd (handleModeChange (E := with_world prompt) showing_auto "manual" loaded))
  = false /\
  toasts (snd (handleModeChange (E := with_world prompt) showing_auto "manual" loaded))
  = [("Succès", "Mode manuel adopté")].
Proof.
  destruct (handleModeChange_outcome (E := with_world prompt)
              showing_auto "manual" loaded eq_refl)
    as (success & Hs & _ & _ & _ & Ht & Hok & _).
  assert (Hf : fst (updateThingSpeak (E := with_world prompt) showing_auto
                      (mode_update "manual") elevated (requested "manual" loaded))
               = Return true) by (vm_compute; reflexivity).
  rewrite Hf in Hs. injection Hs as <-.
  destruct (Hok eq_refl) as (_ & Hsw & _).
  split; [exact Hsw|exact Ht].
Defined.

Lemma handleModeChange_again_sends_nothing_witness :
  StringToNumber (Environment := with_world prompt) "1" = 1%float /\
  trace (snd (handleModeChange (E := with_world prompt)
                (render "READ" "WRITE"
                   (snd (handleModeChange (E := with_world prompt)
                           showing_auto "manual" loaded)))
                "manual"
                (snd (handleModeChange (E := with_world prompt)
                        showing_auto "manual" loaded))))
  = trace (snd (handleModeChange (E := with_world prompt)
                  showing_auto "manual" loaded)).
Proof.
  split; [reflexivity|].
  apply (handleModeChange_again_sends_nothing (E := with_world prompt));
    reflexivity.
Defined.
